(** * ilp-plugin-rddn: the ledger plugin and its transaction submitter

    A shallow embedding of [src/lib/plugin.js], [src/lib/transaction.js]
    and [src/lib/errors.js].  JavaScript values that the code mixes
    (strings, numbers, [undefined]) are kept apart in [Js.value];
    exceptions are an explicit [completion]; the escrow contract and the
    node are read through records of functions, and everything the plugin
    does to the outside (events emitted, timers started, transactions
    submitted) is appended to a log that the code threads through. *)

From Stdlib Require Import ZArith List String Ascii Bool Lia DecimalString.
Import ListNotations.
Local Open Scope string_scope.
Local Open Scope Z_scope.

(** ** JavaScript values and the runtime functions the plugin calls *)

Module Js.

Inductive value :=
| Undefined
| NaN
| Num (z : Z)
| Str (s : string).

Definition value_eqb (a b : value) : bool :=
  match a, b with
  | Undefined, Undefined => true
  | Num x, Num y => Z.eqb x y
  | Str x, Str y => String.eqb x y
  | _, _ => false
  end.

(** [String(v)], the conversion [+] applies next to a string. *)
Definition to_string (v : value) : string :=
  match v with
  | Undefined => "undefined"
  | NaN => "NaN"
  | Num z => NilZero.string_of_int (Z.to_int z)
  | Str s => s
  end.

(** The binary [+]: concatenation as soon as one side is a string,
    numeric addition otherwise ([undefined] converts to [NaN]). *)
Definition add (a b : value) : value :=
  match a, b with
  | Str x, _ => Str (x ++ to_string b)
  | _, Str y => Str (to_string a ++ y)
  | Num x, Num y => Num (x + y)
  | _, _ => NaN
  end.

(** [!v] is [true] for [undefined], [NaN], [0] and the empty string. *)
Definition truthy (v : value) : bool :=
  match v with
  | Undefined | NaN => false
  | Num z => negb (Z.eqb z 0)
  | Str s => negb (String.eqb s "")
  end.

(** [s.substring(n)] and [s.slice(n)] for [0 <= n]. *)
Fixpoint slice_from (n : nat) (s : string) : string :=
  match n, s with
  | O, _ => s
  | S k, String _ r => slice_from k r
  | S _, EmptyString => EmptyString
  end.

(** [s.indexOf(pat)]: the first position of [pat] in [s], or [-1]. *)
Definition indexOf (s pat : string) : Z :=
  match String.index 0 pat s with
  | Some n => Z.of_nat n
  | None => -1
  end.

Definition code (c : ascii) : Z := Z.of_N (N_of_ascii c).

(** [c.toLowerCase()] on the ASCII range. *)
Definition lower_ascii (c : ascii) : ascii :=
  if (65 <=? code c) && (code c <=? 90)
  then ascii_of_N (Z.to_N (code c + 32)) else c.

Fixpoint toLowerCase (s : string) : string :=
  match s with
  | EmptyString => EmptyString
  | String c r => String (lower_ascii c) (toLowerCase r)
  end.

(** *** Buffer.from(s, 'hex') *)

Definition hexDigitValue (c : ascii) : option Z :=
  let n := code c in
  if (48 <=? n) && (n <=? 57) then Some (n - 48)
  else if (97 <=? n) && (n <=? 102) then Some (n - 87)
  else if (65 <=? n) && (n <=? 70) then Some (n - 55)
  else None.

(** Node decodes two digits at a time and stops at the first pair that
    is not hexadecimal; a trailing single digit is dropped. *)
Fixpoint Buffer_from_hex (s : string) : list Z :=
  match s with
  | String a (String b rest) =>
      match hexDigitValue a, hexDigitValue b with
      | Some h, Some l => (16 * h + l) :: Buffer_from_hex rest
      | _, _ => []
      end
  | _ => []
  end.

(** *** uuid-parse: unparse(buf) *)

Definition hexChar (n : Z) : ascii :=
  if n <? 10 then ascii_of_N (Z.to_N (48 + n)) else ascii_of_N (Z.to_N (87 + n)).

(** The table entry [_byteToHex[b] = (b + 0x100).toString(16).substr(1)]. *)
Definition byteToHex (b : Z) : string :=
  String (hexChar (b / 16)) (String (hexChar (b mod 16)) EmptyString).

(** [bth[buf[i]]]: the table entry, [undefined] past the end of [buf]. *)
Definition bth (buf : list Z) (i : nat) : value :=
  match nth_error buf i with
  | Some b => Str (byteToHex b)
  | None => Undefined
  end.

(** The sum [bth[buf[0]] + bth[buf[1]] + ... + '-' + ...], left to right. *)
Definition unparse_sum (buf : list Z) : value :=
  let b := bth buf in
  let dash := Str "-" in
  fold_left add
    [b 1%nat; b 2%nat; b 3%nat; dash;
     b 4%nat; b 5%nat; dash;
     b 6%nat; b 7%nat; dash;
     b 8%nat; b 9%nat; dash;
     b 10%nat; b 11%nat; b 12%nat; b 13%nat; b 14%nat; b 15%nat]
    (b 0%nat).

(** The sum contains the ['-'] literals, so it is always a string
    ([unparse_sum_is_string] below); [unparse] returns that string. *)
Definition unparse (buf : list Z) : string := to_string (unparse_sum buf).

End Js.

(** ** lib/errors.js and the errors the runtime raises *)

Inductive js_error :=
| Error (message : string)
| PastSequenceError
| TypeError (message : string)
| ReferenceError (message : string)
| RangeError (message : string).

(** [error.message]; [new Errors.PastSequenceError()] is built without
    arguments, so its message is empty. *)
Definition message_of (e : js_error) : string :=
  match e with
  | Error m | TypeError m | ReferenceError m | RangeError m => m
  | PastSequenceError => ""
  end.

(** [error instanceof Errors.PastSequenceError] *)
Definition is_PastSequenceError (e : js_error) : bool :=
  match e with PastSequenceError => true | _ => false end.

Inductive completion (A : Type) :=
| Normal (a : A)
| Throw (e : js_error).
Arguments Normal {A} a.
Arguments Throw {A} e.

(** ** More of the runtime: base64url and Date *)

Module Encoding.

Definition base64_alphabet : list ascii :=
  list_ascii_of_string
    "ABCDEFGHIJKLMNOPQRSTUVWXYZabcdefghijklmnopqrstuvwxyz0123456789+/".

Definition b64 (n : Z) : ascii := nth (Z.to_nat n) base64_alphabet "A"%char.

(** [buf.toString('base64')] *)
Fixpoint toString_base64 (buf : list Z) : string :=
  match buf with
  | a :: b :: c :: rest =>
      String (b64 (a / 4))
        (String (b64 ((a mod 4) * 16 + b / 16))
           (String (b64 ((b mod 16) * 4 + c / 64))
              (String (b64 (c mod 64)) (toString_base64 rest))))
  | [a; b] =>
      String (b64 (a / 4))
        (String (b64 ((a mod 4) * 16 + b / 16))
           (String (b64 ((b mod 16) * 4)) "="))
  | [a] =>
      String (b64 (a / 4)) (String (b64 ((a mod 4) * 16)) "==")
  | [] => ""
  end.

(** base64url's [fromBase64]: drop [=], turn [+] into [-] and [/] into [_]. *)
Fixpoint fromBase64 (s : string) : string :=
  match s with
  | EmptyString => EmptyString
  | String c r =>
      if Ascii.eqb c "=" then fromBase64 r
      else if Ascii.eqb c "+" then String "-" (fromBase64 r)
      else if Ascii.eqb c "/" then String "_" (fromBase64 r)
      else String c (fromBase64 r)
  end.

(** [base64url(buffer)] *)
Definition base64url (buf : list Z) : string := fromBase64 (toString_base64 buf).

(** Decimal digits of [0 <= n], left-padded with zeros to [width]. *)
Fixpoint pad (width : nat) (n : Z) : string :=
  match width with
  | O => ""
  | S w => pad w (n / 10) ++ String (ascii_of_N (Z.to_N (48 + n mod 10))) ""
  end.

(** Days since 1970-01-01 to the proleptic Gregorian (year, month, day). *)
Definition civil_from_days (days : Z) : Z * Z * Z :=
  let z := days + 719468 in
  let era := z / 146097 in
  let doe := z - era * 146097 in
  let yoe := (doe - doe / 1460 + doe / 36524 - doe / 146096) / 365 in
  let doy := doe - (365 * yoe + yoe / 4 - yoe / 100) in
  let mp := (5 * doy + 2) / 153 in
  let d := doy - (153 * mp + 2) / 5 + 1 in
  let m := if mp <? 10 then mp + 3 else mp - 9 in
  let y := yoe + era * 400 + (if m <=? 2 then 1 else 0) in
  (y, m, d).

Definition year_string (y : Z) : string :=
  if (0 <=? y) && (y <=? 9999) then pad 4 y
  else if y <? 0 then "-" ++ pad 6 (- y)
  else "+" ++ pad 6 y.

End Encoding.

(** [(new Date(ms)).toISOString()]; a time value beyond 8.64e15 ms is an
    invalid date and [toISOString] throws. *)
Definition Date_toISOString (ms : Z) : completion string :=
  if 8640000000000000 <? Z.abs ms then Throw (RangeError "Invalid time value")
  else
    let '(y, m, d) := Encoding.civil_from_days (ms / 86400000) in
    let t := ms mod 86400000 in
    Normal (Encoding.year_string y ++ "-" ++ Encoding.pad 2 m ++ "-" ++ Encoding.pad 2 d
            ++ "T" ++ Encoding.pad 2 (t / 3600000)
            ++ ":" ++ Encoding.pad 2 ((t / 60000) mod 60)
            ++ ":" ++ Encoding.pad 2 ((t / 1000) mod 60)
            ++ "." ++ Encoding.pad 3 (t mod 1000) ++ "Z").

(** ** Data model *)

(** [transfer.custom] as [_getRddnTransfer] builds it. *)
Record Custom := mkCustom {
  moneyId : string;
  custom_direction : Js.value
}.

(** The "not found" transfer has [custom: ''] instead of an object. *)
Inductive custom_field :=
| CustomEmpty
| CustomObject (c : Custom).

(** The transfer object.  [ledger] and [direction] are the two properties
    the plugin adds after the projection; [Js.Undefined] means the
    property was never set. *)
Record Transfer := mkTransfer {
  id : string;
  from : string;
  to : string;
  amount : Js.value;
  ilp : string;
  executionCondition : string;
  expiresAt : string;
  custom : custom_field;
  state : Js.value;
  ledger : Js.value;
  direction : Js.value
}.

Definition set_ledger (v : Js.value) (t : Transfer) : Transfer :=
  mkTransfer (id t) (from t) (to t) (amount t) (ilp t) (executionCondition t)
             (expiresAt t) (custom t) (state t) v (direction t).

Definition set_direction (v : Js.value) (t : Transfer) : Transfer :=
  mkTransfer (id t) (from t) (to t) (amount t) (ilp t) (executionCondition t)
             (expiresAt t) (custom t) (state t) (ledger t) v.

(** What [contract.methods.getTransfer(_id).call()] resolves to and the
    code reads as [transfer[0]] .. [transfer[6]].  The expiry and the two
    codes arrive as decimal strings; they are kept as the integers they
    spell. *)
Record RawTransfer := mkRaw {
  raw_from : string;
  raw_to : string;
  raw_amount : string;
  raw_condition : string;
  raw_expiry : Z;
  raw_state : Z;
  raw_direction : Z
}.

(** The read methods of the escrow contract; a call may reject. *)
Record Contract := mkContract {
  contract_address : string;
  getTransfer_call : string -> completion RawTransfer;
  getMoneyIdByTransferId_call : string -> completion string;
  getIlpPacket_call : string -> completion string
}.

(** Arguments of a contract write before [encodeABI].  The conversions of
    transaction.js from base64 and ISO dates to hex are kept as named
    constructors over their input. *)
Inductive hexdata :=
| conditionToHex (condition : string)
| ilpToData (ilp : string)
| isoToHex (iso : string).

Definition fulfillmentToHex := conditionToHex.

Inductive calldata :=
| abortTransfer (ledgerId : string)
| fulfillTransfer (ledgerId : string) (fulfillment : hexdata)
| createTransfer (moneyId : Js.value) (amount : Js.value) (condition : hexdata)
                 (ledgerId : string) (expiry : hexdata) (ilp : hexdata)
                 (direction : Js.value).

Record RawTx := mkRawTx {
  tx_from : string;
  tx_to : string;
  tx_gasPrice : Z;
  tx_gas : Z;
  tx_data : calldata;
  tx_nonce : Z
}.

(** [new Tx(rawTx)] signed with the private key and serialized. *)
Record SignedTx := mkSignedTx {
  signed_tx : RawTx;
  signed_with : string
}.

(** A node handle.  [sendSignedTransaction n tx] is the node's answer to
    the submission made after [n] earlier ones; [getTransactionCount n a]
    likewise for the pending sequence number of [a]. *)
Record Web3 := mkWeb3 {
  endpoint : string;
  getTransactionCount : nat -> string -> completion Z;
  sendSignedTransaction : nat -> SignedTx -> completion unit
}.

(** What the plugin cannot build by itself: the node behind an endpoint. *)
Record Env := mkEnv {
  node_nonce : string -> nat -> string -> completion Z;
  node_accepts : string -> nat -> SignedTx -> completion unit;
  deployed : string -> Contract
}.

(** [new Web3(createWebsocketProvider(provider))] *)
Definition new_Web3 (env : Env) (provider : string) : Web3 :=
  mkWeb3 provider (node_nonce env provider) (node_accepts env provider).

(** The constructor's [opts]. *)
Record Opts := mkOpts {
  opts_provider : string;
  opts_altProvider : option string;
  opts_address : string;
  opts_secretKey : string;
  opts_contract : string;
  opts_prefix : string;
  opts_private : option string
}.

(** The fields of a [PluginRddn] instance.  [outgoingList] and
    [incomingList] are read by [forceEmitPrepare] and never assigned by
    the class, so they are [None] unless a caller sets them. *)
Record PluginRddn := mkPlugin {
  _primaryProvider : string;
  _secondaryProvider : string;
  provider : string;
  address : string;
  privateKey : string;
  contractAddress : string;
  _prefix : string;
  private : string;
  web3 : option Web3;
  extWeb3 : option Web3;
  contract : option Contract;
  isProcessing : bool;
  outgoingList : option (list string);
  incomingList : option (list string)
}.

(** What the listeners of an event receive after the event name. *)
Inductive arg :=
| ATransfer (t : Transfer)
| AValue (v : Js.value).

(** Everything observable from outside the plugin. *)
Inductive effect :=
| Emitted (name : string) (args : list arg)
| TimerStarted (ms : Z)
| IntervalStarted (ms : Z)
| NonceQueried (address : string)
| Submitted (tx : SignedTx)
| LivenessQueried (endpoint : string)
| SocketClosed (endpoint : string)
| SocketOpened (endpoint : string)
| Subscribed (channel : string).

(** The world outside: a virtual clock in milliseconds and the effects so
    far, oldest first, each stamped with the clock. *)
Record world := mkWorld {
  now : Z;
  log : list (Z * effect)
}.

Definition M (A : Type) : Type := world -> completion A * world.

Definition ret {A} (a : A) : M A := fun w => (Normal a, w).
Definition throw {A} (e : js_error) : M A := fun w => (Throw e, w).
Definition bind {A B} (m : M A) (k : A -> M B) : M B :=
  fun w => match m w with
           | (Normal a, w') => k a w'
           | (Throw e, w') => (Throw e, w')
           end.
Definition try_catch {A} (m : M A) (handler : js_error -> M A) : M A :=
  fun w => match m w with
           | (Normal a, w') => (Normal a, w')
           | (Throw e, w') => handler e w'
           end.
Definition lift {A} (c : completion A) : M A := fun w => (c, w).
Definition perform (e : effect) : M unit :=
  fun w => (Normal tt, mkWorld (now w) (log w ++ [(now w, e)])).

Declare Scope js_scope.
Delimit Scope js_scope with js.
Notation "x <- m ;; k" := (bind m (fun x => k))
  (at level 61, m at next level, right associativity) : js_scope.
Notation "' pat <- m ;; k" := (bind m (fun x => match x with pat => k end))
  (at level 61, pat pattern, m at next level, right associativity) : js_scope.
Notation "m ;;; k" := (bind m (fun _ => k))
  (at level 61, right associativity) : js_scope.
Local Open Scope js_scope.

(** The same sequencing for code that only reads. *)
Definition cbind {A B} (c : completion A) (k : A -> completion B) : completion B :=
  match c with
  | Normal a => k a
  | Throw e => Throw e
  end.
Notation "'let*' x := c 'in' k" := (cbind c (fun x => k))
  (at level 61, x name, c at next level, right associativity) : js_scope.

Definition effects (w : world) : list effect := map snd (log w).
Definition submissions (w : world) : nat :=
  List.length (filter (fun e => match e with Submitted _ => true | _ => false end) (effects w)).
(** The clock values at which transactions were submitted. *)
Definition submission_times (w : world) : list Z :=
  map fst (filter (fun te => match snd te with Submitted _ => true | _ => false end) (log w)).
Definition nonce_queries (w : world) : nat :=
  List.length (filter (fun e => match e with NonceQueried _ => true | _ => false end) (effects w)).

(** ** lib/transaction.js *)

Module Transaction.

(** [uuid.replace(/-/g, '')] *)
Fixpoint replace_dashes (s : string) : string :=
  match s with
  | EmptyString => EmptyString
  | String c r =>
      if Ascii.eqb c "-" then replace_dashes r else String c (replace_dashes r)
  end.

Definition uuidToHex (uuid : string) : string := "0x" ++ replace_dashes uuid.

Definition gasLimit : Z := 4700000.
Definition gasPrice : Z := 0.

(** [contract.methods.f(...).encodeABI()]: reading [methods] of a contract
    that was never bound is a TypeError. *)
Definition encodeABI (contract : option Contract) (call : calldata) : M (Contract * calldata) :=
  match contract with
  | None => throw (TypeError "Cannot read property 'methods' of undefined")
  | Some c => ret (c, call)
  end.

(** [await web3.eth.getTransactionCount(address, 'pending')] *)
Definition pendingNonce (web3 : option Web3) (address : string) : M Z :=
  match web3 with
  | None => throw (TypeError "Cannot read property 'eth' of null")
  | Some h =>
      fun w =>
        (getTransactionCount h (nonce_queries w) address,
         mkWorld (now w) (log w ++ [(now w, NonceQueried address)]))
  end.

(** [tx.sign(new Buffer(privateKey.split('0x')[1], 'hex')); tx.serialize()].
    Without a ['0x'] in the key, [split] has no second piece and [new
    Buffer(undefined, 'hex')] is a TypeError.  The checks of the signing
    library on the key itself are outside this model. *)
Definition sign (rawTx : RawTx) (privateKey : string) : M SignedTx :=
  if Js.indexOf privateKey "0x" <? 0
  then throw (TypeError "First argument must be a string, Buffer, ArrayBuffer, Array, or array-like object.")
  else ret (mkSignedTx rawTx privateKey).

(** [await web3.eth.sendSignedTransaction('0x' + serializedTx.toString('hex'))]:
    the one network write. *)
Definition send (web3 : option Web3) (tx : SignedTx) : M unit :=
  match web3 with
  | None => throw (TypeError "Cannot read property 'eth' of null")
  | Some h =>
      fun w =>
        (sendSignedTransaction h (submissions w) tx,
         mkWorld (now w) (log w ++ [(now w, Submitted tx)]))
  end.

Definition rejectIncomingTransfer (contract : option Contract) (uuid address privateKey : string)
           (web3 : option Web3) (privateFor : string) : M unit :=
  '(c, params) <- encodeABI contract (abortTransfer (uuidToHex uuid)) ;;
  nonce <- pendingNonce web3 address ;;
  let rawTx := mkRawTx address (contract_address c) gasPrice gasLimit params nonce in
  serializedTx <- sign rawTx privateKey ;;
  try_catch (send web3 serializedTx) (fun e => throw e).

Definition fulfillCondition (contract : option Contract) (uuid fulfillment address privateKey : string)
           (web3 : option Web3) (privateFor : string) : M unit :=
  '(c, params) <- encodeABI contract
                    (fulfillTransfer (uuidToHex uuid) (fulfillmentToHex fulfillment)) ;;
  nonce <- pendingNonce web3 address ;;
  let rawTx := mkRawTx address (contract_address c) gasPrice gasLimit params nonce in
  serializedTx <- sign rawTx privateKey ;;
  try_catch (send web3 serializedTx) (fun e => throw e).

(** [transfer.custom.moneyId] and [transfer.custom.direction]; both are
    [undefined] on the empty-string [custom] of a "not found" transfer. *)
Definition custom_moneyId (t : Transfer) : Js.value :=
  match custom t with
  | CustomObject c => Js.Str (moneyId c)
  | CustomEmpty => Js.Undefined
  end.
Definition custom_dir (t : Transfer) : Js.value :=
  match custom t with
  | CustomObject c => custom_direction c
  | CustomEmpty => Js.Undefined
  end.

(** [isoToHex(web3, iso)] reads [web3.utils]. *)
Definition isoToHex_with (web3 : option Web3) (iso : string) : M hexdata :=
  match web3 with
  | None => throw (TypeError "Cannot read property 'utils' of null")
  | Some _ => ret (isoToHex iso)
  end.

Definition sendTransfer (contract : option Contract) (transfer : Transfer)
           (address privateKey prefix : string) (web3 : option Web3) (privateFor : string) : M unit :=
  match contract with
  | None => throw (TypeError "Cannot read property 'methods' of undefined")
  | Some _ =>
      expiry <- isoToHex_with web3 (expiresAt transfer) ;;
      '(c, params) <- encodeABI contract
                        (createTransfer (custom_moneyId transfer) (amount transfer)
                           (conditionToHex (executionCondition transfer))
                           (uuidToHex (id transfer)) expiry
                           (ilpToData (ilp transfer)) (custom_dir transfer)) ;;
      nonce <- pendingNonce web3 address ;;
      let rawTx := mkRawTx address (contract_address c) gasPrice gasLimit params nonce in
      serializedTx <- sign rawTx privateKey ;;
      try_catch (send web3 serializedTx) (fun e => throw e)
  end.

End Transaction.

(** ** lib/plugin.js *)

(** [array[i]] on an array literal: [undefined] outside its indices. *)
Definition array_get (l : list string) (i : Z) : Js.value :=
  if i <? 0 then Js.Undefined
  else match nth_error l (Z.to_nat i) with
       | Some s => Js.Str s
       | None => Js.Undefined
       end.

Definition stateToName (state : Z) : Js.value :=
  array_get ["prepare"; "fulfill"; "abort"] state.

Definition directionToName (direction : Z) : Js.value :=
  array_get ["deposit"; "withdraw"] direction.

Definition hexToAccount (prefix account : string) : string := prefix ++ account.

Definition zero_address : string := "0x0000000000000000000000000000000000000000".

(** [uuidParse.unparse(Buffer.from(_id.substring(2), 'hex'))] *)
Definition hexToUuid (_id : string) : string :=
  Js.unparse (Js.Buffer_from_hex (Js.slice_from 2 _id)).

Definition getAccount (self : PluginRddn) : string := _prefix self ++ address self.

(** [this.web3 || this.extWeb3] *)
Definition node_handle (self : PluginRddn) : option Web3 :=
  match web3 self with
  | Some h => Some h
  | None => extWeb3 self
  end.

Definition isConnected (self : PluginRddn) : bool :=
  match web3 self, extWeb3 self with
  | None, None => false
  | _, _ => true
  end.

Definition emit (name : string) (args : list arg) : M unit := perform (Emitted name args).

(** *** Transfer projection *)

Definition _getRddnTransfer (self : PluginRddn) (_id : string) : completion Transfer :=
  match contract self with
  | None => Throw (TypeError "Cannot read property 'methods' of undefined")
  | Some c =>
      let* transfer := getTransfer_call c _id in
      if String.eqb (raw_from transfer) zero_address then
        Normal {| id := hexToUuid _id;
                  from := "";
                  to := "";
                  amount := Js.Num 0;
                  ilp := "";
                  executionCondition := "";
                  expiresAt := "";
                  custom := CustomEmpty;
                  state := Js.Str "";
                  ledger := Js.Undefined;
                  direction := Js.Undefined |}
      else
        let* moneyId := getMoneyIdByTransferId_call c _id in
        let* packet := getIlpPacket_call c _id in
        let ilp := Encoding.base64url (Js.Buffer_from_hex (Js.slice_from 2 packet)) in
        let unparsedId := hexToUuid _id in
        let custom := {| moneyId := moneyId;
                         custom_direction := directionToName (raw_direction transfer) |} in
        let* expires := Date_toISOString (raw_expiry transfer * 1000) in
        Normal {| id := unparsedId;
                  from := hexToAccount (_prefix self) (raw_from transfer);
                  to := hexToAccount (_prefix self) (raw_to transfer);
                  amount := Js.Str (raw_amount transfer);
                  ilp := ilp;
                  executionCondition :=
                    Encoding.base64url (Js.Buffer_from_hex (Js.slice_from 2 (raw_condition transfer)));
                  expiresAt := expires;
                  custom := CustomObject custom;
                  state := stateToName (raw_state transfer);
                  ledger := Js.Undefined;
                  direction := Js.Undefined |}
  end.

Definition getTransfer (self : PluginRddn) (uuid : string) : completion Transfer :=
  _getRddnTransfer self (Transaction.uuidToHex uuid).

(** *** Event router *)

Definition _processUpdate (self : PluginRddn) (transfer : Transfer) (fulfillment : Js.value)
  : M unit :=
  let direction := Js.Undefined in
  let direction :=
    if String.eqb (from transfer) (getAccount self) then Js.Str "outgoing" else direction in
  let direction :=
    if String.eqb (to transfer) (getAccount self) then Js.Str "incoming" else direction in
  if negb (Js.truthy direction) then
    if Js.value_eqb (state transfer) (Js.Str "fulfill") then
      emit "event_fulfill" [ATransfer transfer; AValue fulfillment]
    else
      emit (Js.to_string (Js.add (Js.Str "event_") (state transfer))) [ATransfer transfer]
  else
    let transfer := set_ledger (Js.Str (_prefix self)) transfer in
    let name := Js.to_string (Js.add (Js.add direction (Js.Str "_")) (state transfer)) in
    if Js.value_eqb (state transfer) (Js.Str "fulfill") then
      emit name [ATransfer transfer; AValue fulfillment; AValue (Js.Str (ilp transfer))]
    else
      emit name [ATransfer transfer].

(** The ['data'] handler of [contract.events.Fulfill()]. *)
Definition onFulfill (self : PluginRddn) (uuid fulfillment : string) : M unit :=
  transfer <- lift (_getRddnTransfer self uuid) ;;
  _processUpdate self transfer
    (Js.Str (Encoding.base64url (Js.Buffer_from_hex (Js.slice_from 2 fulfillment)))).

(** The ['data'] handler of [contract.events.Update()]. *)
Definition onUpdate (self : PluginRddn) (uuid : string) : M unit :=
  transfer <- lift (_getRddnTransfer self uuid) ;;
  _processUpdate self transfer Js.Undefined.

(** *** Forced re-emission *)

(** The identifier [_] in [_.includes]: plugin.js neither declares it nor
    requires a module under that name, so evaluating it is a
    ReferenceError. *)
Definition underscore : completion (option (list string) -> string -> bool) :=
  Throw (ReferenceError "_ is not defined").

(** [a || b], where only [b] can throw and is evaluated only if [a] is false. *)
Definition or_else (a : bool) (b : completion bool) : completion bool :=
  if a then Normal true else b.

Definition forceEmitPrepare (self : PluginRddn) (transferId : string) : M bool :=
  try_catch
    (transfer <- lift (getTransfer self transferId) ;;
     let direction := Js.Undefined in
     is_outgoing <- lift (or_else (String.eqb (from transfer) (getAccount self))
                            (let* lodash := underscore in
                             Normal (lodash (outgoingList self) (Js.toLowerCase (from transfer))))) ;;
     let direction := if is_outgoing then Js.Str "outgoing" else direction in
     is_incoming <- lift (or_else (String.eqb (to transfer) (getAccount self))
                            (let* lodash := underscore in
                             Normal (lodash (incomingList self) (Js.toLowerCase (to transfer))))) ;;
     let direction := if is_incoming then Js.Str "incoming" else direction in
     if Js.truthy direction then
       let transfer := set_direction direction transfer in
       emit (Js.to_string (Js.add direction (Js.Str "_prepare"))) [ATransfer transfer] ;;;
       ret true
     else ret false)
    (fun e => throw e).

Definition forceEmitFulfill (self : PluginRddn) (transferId : string) (fulfillment ilp : Js.value)
  : M bool :=
  try_catch
    (transfer <- lift (getTransfer self transferId) ;;
     let direction := Js.Undefined in
     let direction :=
       if String.eqb (from transfer) (getAccount self) then Js.Str "outgoing" else direction in
     let direction :=
       if String.eqb (to transfer) (getAccount self) then Js.Str "incoming" else direction in
     if Js.truthy direction then
       let transfer := set_direction direction transfer in
       emit (Js.to_string (Js.add direction (Js.Str "_fulfill")))
            [ATransfer transfer; AValue fulfillment; AValue ilp] ;;;
       ret true
     else ret false)
    (fun e => throw e).

(** *** Submission and retry *)

(** A pending promise of [_sleep]: the clock value at which it resolves. *)
Definition promise := Z.

(** [_sleep(time)]: starts the timer and returns its promise at once. *)
Definition _sleep (time : Z) (w : world) : promise * world :=
  (now w + time, mkWorld (now w) (log w ++ [(now w, TimerStarted time)])).

(** [await p] on such a promise: execution resumes when the clock has
    reached the promise's time. *)
Definition await (p : promise) : M unit :=
  fun w => (Normal tt, mkWorld (Z.max (now w) p) (log w)).

Definition _rejectIncomingTransfer (self : PluginRddn) (transferId : string) : M unit :=
  try_catch
    (Transaction.rejectIncomingTransfer (contract self) transferId (address self)
       (privateKey self) (node_handle self) (private self))
    (fun error =>
       let message := message_of error in
       if 0 <=? Js.indexOf message "replacement transaction underpriced" then
         throw PastSequenceError
       else if 0 <=? Js.indexOf message "known transaction" then
         throw PastSequenceError
       else throw error).

Definition _fulfillCondition (self : PluginRddn) (transferId fulfillment : string) : M unit :=
  try_catch
    (Transaction.fulfillCondition (contract self) transferId fulfillment (address self)
       (privateKey self) (node_handle self) (private self))
    (fun error =>
       let message := message_of error in
       if 0 <=? Js.indexOf message "replacement transaction underpriced" then
         throw PastSequenceError
       else if 0 <=? Js.indexOf message "known transaction" then
         throw PastSequenceError
       else throw error).

Definition sendTransfer (self : PluginRddn) (_transfer : Transfer) : M unit :=
  if negb (isConnected self) then throw (Error "must be connected")
  else
    try_catch
      (Transaction.sendTransfer (contract self) _transfer (address self) (privateKey self)
         (_prefix self) (node_handle self) (private self))
      (fun error =>
         let message := message_of error in
         if 0 <=? Js.indexOf message "replacement transaction underpriced" then
           throw PastSequenceError
         else throw error).

(** The two retrying entry points call themselves again after a sequence
    conflict.  [fuel] bounds the depth of that recursion; [None] means the
    bound was reached with the call still retrying. *)
Fixpoint rejectIncomingTransfer (fuel : nat) (self : PluginRddn) (transferId : string)
         (w : world) : option (completion unit * world) :=
  match fuel with
  | O => None
  | S fuel' =>
      match _rejectIncomingTransfer self transferId w with
      | (Normal r, w1) => Some (Normal r, w1)
      | (Throw error, w1) =>
          if is_PastSequenceError error then
            let (_, w2) := _sleep 500 w1 in
            rejectIncomingTransfer fuel' self transferId w2
          else Some (Throw error, w1)
      end
  end.

Fixpoint fulfillCondition (fuel : nat) (self : PluginRddn) (transferId fulfillment : string)
         (ilp : Js.value) (w : world) : option (completion unit * world) :=
  match fuel with
  | O => None
  | S fuel' =>
      match _fulfillCondition self transferId fulfillment w with
      | (Normal r, w1) => Some (Normal r, w1)
      | (Throw error, w1) =>
          if is_PastSequenceError error then
            let (_, w2) := _sleep 500 w1 in
            fulfillCondition fuel' self transferId fulfillment ilp w2
          else Some (Throw error, w1)
      end
  end.

(** *** Connection manager: the health probe *)

Definition set_provider (p : string) (self : PluginRddn) : PluginRddn :=
  mkPlugin (_primaryProvider self) (_secondaryProvider self) p (address self)
           (privateKey self) (contractAddress self) (_prefix self) (private self)
           (web3 self) (extWeb3 self) (contract self) (isProcessing self)
           (outgoingList self) (incomingList self).

Definition set_web3 (h : option Web3) (self : PluginRddn) : PluginRddn :=
  mkPlugin (_primaryProvider self) (_secondaryProvider self) (provider self) (address self)
           (privateKey self) (contractAddress self) (_prefix self) (private self)
           h (extWeb3 self) (contract self) (isProcessing self)
           (outgoingList self) (incomingList self).

Definition set_isProcessing (b : bool) (self : PluginRddn) : PluginRddn :=
  mkPlugin (_primaryProvider self) (_secondaryProvider self) (provider self) (address self)
           (privateKey self) (contractAddress self) (_prefix self) (private self)
           (web3 self) (extWeb3 self) (contract self) b
           (outgoingList self) (incomingList self).

(** The [if (this.provider === this._primaryProvider) ... else ...] that
    both branches of the probe contain. *)
Definition flip_provider (self : PluginRddn) : PluginRddn :=
  if String.eqb (provider self) (_primaryProvider self)
  then set_provider (_secondaryProvider self) self
  else set_provider (_primaryProvider self) self.

(** [createWebsocketProvider(this.provider)]: a socket opened towards the
    active endpoint; its ['connect'] event runs [connect()]. *)
Definition createWebsocketProvider (self : PluginRddn) : M unit :=
  perform (SocketOpened (provider self)).

(** [_heartbeat()]: at most one interval timer, none with an external handle. *)
Definition _heartbeat (self : PluginRddn) : M PluginRddn :=
  match extWeb3 self with
  | Some _ => ret self
  | None =>
      if isProcessing self then ret self
      else
        let self := set_isProcessing true self in
        perform (IntervalStarted (5 * 1000)) ;;; ret self
  end.

(** First half of the interval callback: [if (!this.web3) { ... }]. *)
Definition probe_reconnect (self : PluginRddn) : M PluginRddn :=
  match web3 self with
  | None =>
      let self := flip_provider self in
      createWebsocketProvider self ;;; ret self
  | Some _ => ret self
  end.

(** The [.catch] handler of the liveness query.  It reads [this.web3]
    again when it runs. *)
Definition on_liveness_failure (self : PluginRddn) : M PluginRddn :=
  match web3 self with
  | None => throw (TypeError "Cannot read property 'currentProvider' of null")
  | Some h =>
      perform (SocketClosed (endpoint h)) ;;;
      let self := set_web3 None self in
      let self := flip_provider self in
      createWebsocketProvider self ;;; ret self
  end.

(** One tick of the interval callback.  [listening] is what
    [web3.eth.net.isListening()] settles to; the tick is taken as one
    step, with nothing else running between the query and its handler. *)
Definition heartbeat_tick (self : PluginRddn) (listening : completion bool) : M PluginRddn :=
  self <- probe_reconnect self ;;
  match web3 self with
  | Some h =>
      perform (LivenessQueried (endpoint h)) ;;;
      match listening with
      | Normal _ => ret self
      | Throw _ => on_liveness_failure self
      end
  | None => ret self
  end.

(** *** Construction and connect *)

(** [a || b] on an optional string: the empty string is falsy too. *)
Definition or_default (a : option string) (b : string) : string :=
  match a with
  | Some s => if String.eqb s "" then b else s
  | None => b
  end.

Definition constructor (opts : Opts) : PluginRddn :=
  {| _primaryProvider := opts_provider opts;
     _secondaryProvider := or_default (opts_altProvider opts) (opts_provider opts);
     provider := opts_provider opts;
     address := opts_address opts;
     privateKey := opts_secretKey opts;
     contractAddress := opts_contract opts;
     _prefix := opts_prefix opts;
     private := or_default (opts_private opts) "";
     web3 := None;
     extWeb3 := None;
     contract := None;
     isProcessing := false;
     outgoingList := None;
     incomingList := None |}.

Definition setWeb3 (_web3 : Web3) (self : PluginRddn) : PluginRddn :=
  mkPlugin (_primaryProvider self) (_secondaryProvider self) (provider self) (address self)
           (privateKey self) (contractAddress self) (_prefix self) (private self)
           (web3 self) (Some _web3) (contract self) (isProcessing self)
           (outgoingList self) (incomingList self).

Definition set_contract (c : Contract) (self : PluginRddn) : PluginRddn :=
  mkPlugin (_primaryProvider self) (_secondaryProvider self) (provider self) (address self)
           (privateKey self) (contractAddress self) (_prefix self) (private self)
           (web3 self) (extWeb3 self) (Some c) (isProcessing self)
           (outgoingList self) (incomingList self).

Definition subscribe_all : M unit :=
  perform (Subscribed "Deposit") ;;;
  perform (Subscribed "Withdraw") ;;;
  perform (Subscribed "Fulfill") ;;;
  perform (Subscribed "Update").

Definition connect (env : Env) (self : PluginRddn) : M PluginRddn :=
  match extWeb3 self with
  | Some _ =>
      let self := set_contract (deployed env (contractAddress self)) self in
      subscribe_all ;;;
      self <- _heartbeat self ;;
      emit "connect" [] ;;;
      ret self
  | None =>
      match web3 self with
      | Some _ => ret self
      | None =>
          perform (SocketOpened (provider self)) ;;;
          let self := set_web3 (Some (new_Web3 env (provider self))) self in
          let self := set_contract (deployed env (contractAddress self)) self in
          subscribe_all ;;;
          self <- _heartbeat self ;;
          emit "connect" [] ;;;
          ret self
      end
  end.

Definition disconnect (self : PluginRddn) : M PluginRddn :=
  match web3 self with
  | None => ret self
  | Some h =>
      perform (SocketClosed (endpoint h)) ;;;
      let self := set_web3 None self in
      emit "disconnect" [] ;;;
      ret self
  end.

(** ** The specification's wording, for comparison with the code *)

Module Spec.

Definition isHex (c : ascii) : bool :=
  match Js.hexDigitValue c with
  | Some _ => true
  | None => false
  end.

Definition isLowerHex (c : ascii) : bool :=
  isHex c && Ascii.eqb (Js.lower_ascii c) c.

(** [shape] says, position by position, whether a digit ([true]) or the
    separator ([false]) is expected. *)
Fixpoint has_shape (digit : ascii -> bool) (shape : list bool) (s : string) : bool :=
  match shape, s with
  | [], EmptyString => true
  | true :: shape', String c r => digit c && has_shape digit shape' r
  | false :: shape', String c r => Ascii.eqb c "-" && has_shape digit shape' r
  | _, _ => false
  end.

Definition uuid_shape : list bool :=
  repeat true 8 ++ [false] ++ repeat true 4 ++ [false] ++ repeat true 4 ++ [false]
    ++ repeat true 4 ++ [false] ++ repeat true 12.

(** A well-formed UUID: 8-4-4-4-12 hexadecimal digits of either case. *)
Definition is_uuid (u : string) : bool := has_shape isHex uuid_shape u.

(** The same with digits [0-9a-f] only. *)
Definition is_lowercase_uuid (u : string) : bool := has_shape isLowerHex uuid_shape u.

(** Section 4.1: "strips separators from the canonical UUID string and
    prefixes a fixed marker; fails with MalformedIdentifier if input is
    not a well-formed UUID". *)
Definition toLedgerId (u : string) : completion string :=
  if is_uuid u then Normal ("0x" ++ Transaction.replace_dashes u)
  else Throw (Error "MalformedIdentifier").

(** Section 4.2: "an out-of-range code is a fatal ProtocolMismatch". *)
Definition stateName (code : Z) : completion string :=
  match code with
  | 0 => Normal "prepare"
  | 1 => Normal "fulfill"
  | 2 => Normal "abort"
  | _ => Throw (Error "ProtocolMismatch")
  end.

(** Section 4.3: the two rejection texts that mean a sequence conflict. *)
Definition conflict_text (message : string) : bool :=
  (0 <=? Js.indexOf message "replacement transaction underpriced")
  || (0 <=? Js.indexOf message "known transaction").

(** Sections 3 and 4.2: the "not found" Transfer, "all fields empty/zero". *)
Definition not_found : Transfer :=
  {| id := "";
     from := "";
     to := "";
     amount := Js.Num 0;
     ilp := "";
     executionCondition := "";
     expiresAt := "";
     custom := CustomEmpty;
     state := Js.Str "";
     ledger := Js.Undefined;
     direction := Js.Undefined |}.

Definition set_id (i : string) (t : Transfer) : Transfer :=
  mkTransfer i (from t) (to t) (amount t) (ilp t) (executionCondition t)
             (expiresAt t) (custom t) (state t) (ledger t) (direction t).

(** Section 4.4: the wait is part of the retry, and the call is issued
    again only after it. *)
Fixpoint retry (fuel : nat) (attempt : M unit) (w : world) : option (completion unit * world) :=
  match fuel with
  | O => None
  | S fuel' =>
      match attempt w with
      | (Normal r, w1) => Some (Normal r, w1)
      | (Throw error, w1) =>
          if is_PastSequenceError error then
            let (p, w2) := _sleep 500 w1 in
            let (_, w3) := await p w2 in
            retry fuel' attempt w3
          else Some (Throw error, w1)
      end
  end.

End Spec.

(** ** Sample instances *)

Module Sample.

Definition alice_address : string := "0xa11ce00000000000000000000000000000000001".
Definition bob_address : string := "0xb0b0000000000000000000000000000000000002".
Definition carol_address : string := "0xca40100000000000000000000000000000000003".

Definition opts : Opts :=
  {| opts_provider := "ws://node-1:8546";
     opts_altProvider := Some "ws://node-2:8546";
     opts_address := alice_address;
     opts_secretKey := "0x4c0883a69102937d6231471b5dbb6204fe5129617082792ae468d01a3f362318";
     opts_contract := "0xe5c40000000000000000000000000000000000aa";
     opts_prefix := "test.rddn.";
     opts_private := None |}.

Definition uuid : string := "f55585e1-0c19-4588-832d-369cfa005640".
Definition ledgerId : string := "0xf55585e10c194588832d369cfa005640".

Definition raw (from to : string) (state direction : Z) : RawTransfer :=
  {| raw_from := from;
     raw_to := to;
     raw_amount := "1000";
     raw_condition := "0x0102030405060708090a0b0c0d0e0f101112131415161718191a1b1c1d1e1f20";
     raw_expiry := 1528794482;
     raw_state := state;
     raw_direction := direction |}.

(** A contract holding one record, under [ledgerId]; any other id reads
    as the all-zero record. *)
Definition store (r : RawTransfer) : Contract :=
  {| contract_address := opts_contract opts;
     getTransfer_call := fun i =>
       Normal (if String.eqb i ledgerId then r
               else mkRaw zero_address zero_address "0" "0x" 0 0 0);
     getMoneyIdByTransferId_call := fun _ => Normal "JPY-1";
     getIlpPacket_call := fun _ => Normal "0x68656c6c6f" |}.

(** A node that answers the n-th submission with the n-th entry of
    [replies], and accepts once the list is used up. *)
Definition scripted (replies : list (completion unit)) (endpoint : string) : Web3 :=
  mkWeb3 endpoint (fun n _ => Normal (Z.of_nat n)) (fun n _ => nth n replies (Normal tt)).

(** [alice], connected through her own handle to a scripted node, with
    the contract bound to [store r]. *)
Definition connected (replies : list (completion unit)) (r : RawTransfer) : PluginRddn :=
  set_isProcessing true
    (set_contract (store r)
       (set_web3 (Some (scripted replies "ws://node-1:8546")) (constructor opts))).

(** [alice] after [disconnect()]: the contract is still bound, no handle is. *)
Definition unconnected (r : RawTransfer) : PluginRddn :=
  set_contract (store r) (constructor opts).

(** [alice] with the two allow-lists of [forceEmitPrepare] filled in by
    her owner: [bob] on the outgoing side, [carol] on the incoming side. *)
Definition listed (r : RawTransfer) : PluginRddn :=
  let self := connected [] r in
  mkPlugin (_primaryProvider self) (_secondaryProvider self) (provider self) (address self)
           (privateKey self) (contractAddress self) (_prefix self) (private self)
           (web3 self) (extWeb3 self) (contract self) (isProcessing self)
           (Some ["test.rddn." ++ bob_address]) (Some ["test.rddn." ++ carol_address]).

Definition w0 : world := mkWorld 0 [].

Definition outgoing_transfer : Transfer :=
  {| id := uuid;
     from := "test.rddn." ++ alice_address;
     to := "test.rddn." ++ bob_address;
     amount := Js.Str "1000";
     ilp := "aGVsbG8";
     executionCondition := "AQIDBAUGBwgJCgsMDQ4PEBESExQVFhcYGRobHB0eHyA";
     expiresAt := "2018-06-12T09:08:02.000Z";
     custom := CustomObject (mkCustom "JPY-1" (Js.Str "deposit"));
     state := Js.Str "prepare";
     ledger := Js.Undefined;
     direction := Js.Undefined |}.

End Sample.

(** Numeric value of a hexadecimal digit, [0] for any other character. *)
Definition nibble (c : ascii) : Z :=
  match Js.hexDigitValue c with
  | Some v => v
  | None => 0
  end.

Definition not_dash (c : ascii) : bool := negb (Ascii.eqb c "-").

(** ** The rest of lib/transaction.js and lib/plugin.js *)

(** [account.startsWith(ledgerPrefix)] *)
Definition startsWith (s prefix : string) : bool := String.prefix prefix s.

(** [n] hexadecimal digits at the head of [s]: the digits, and what
    follows them. *)
Fixpoint hex_digits (n : nat) (s : string) : option (string * string) :=
  match n with
  | O => Some (EmptyString, s)
  | S k =>
      match s with
      | EmptyString => None
      | String c r =>
          match Js.hexDigitValue c with
          | None => None
          | Some _ =>
              match hex_digits k r with
              | Some (d, rest) => Some (String c d, rest)
              | None => None
              end
          end
      end
  end.

(** [s.match(/^(0x[0-9A-Fa-f]{40})(\.|$)/g)].  With the [g] flag the
    array holds whole matches, not groups, and the pattern is anchored,
    so it holds at most one: ['0x'], forty digits, and the dot when a dot
    follows.  [None] is the [null] of a failed match. *)
Definition match_account (s : string) : option string :=
  match s with
  | String c0 (String c1 r) =>
      if Ascii.eqb c0 "0" && Ascii.eqb c1 "x" then
        match hex_digits 40 r with
        | Some (digits, EmptyString) => Some ("0x" ++ digits)
        | Some (digits, String c _) =>
            if Ascii.eqb c "." then Some ("0x" ++ digits ++ ".") else None
        | None => None
        end
      else None
  | _ => None
  end.

(** transaction.js, [accountToHex]; [match[0]] is the whole match. *)
Definition accountToHex (account ledgerPrefix : string) : completion string :=
  if negb (startsWith account ledgerPrefix) then
    Throw (Error "account does not start with ledger prefix")
  else
    match match_account (Js.slice_from (String.length ledgerPrefix) account) with
    | None => Throw (Error "account is not a 40-digit hex number")
    | Some m => Normal m
    end.

(** plugin.js, [getInfo]. *)
Record Info := mkInfo {
  info_prefix : string;
  currencyCode : string;
  currencyScale : Z
}.

Definition getInfo (self : PluginRddn) : Info :=
  {| info_prefix := _prefix self; currencyCode := "JPY"; currencyScale := 0 |}.

(** The two read methods of the contract that [Contract] above does not
    list: [getRequests(address, state, direction)] and [getMoney(moneyId)]. *)
Record ContractQueries := mkQueries {
  getRequests_call : string -> Z -> Z -> completion (list string);
  getMoney_call : string -> completion Js.value
}.

(** plugin.js, [getRequests]: an empty result is returned as it is, any
    other is copied entry by entry into [temp], each id in UUID form. *)
Definition getRequests (self : PluginRddn) (methods : ContractQueries)
           (_address : string) (_state _direction : Z) : completion (list string) :=
  match contract self with
  | None => Throw (TypeError "Cannot read property 'methods' of undefined")
  | Some _ =>
      let* result := getRequests_call methods _address _state _direction in
      if Nat.eqb (List.length result) 0 then Normal result
      else Normal (map hexToUuid result)
  end.

(** plugin.js, [getDigitalMoney]. *)
Definition getDigitalMoney (self : PluginRddn) (methods : ContractQueries) (_moneyId : string)
  : completion Js.value :=
  match contract self with
  | None => Throw (TypeError "Cannot read property 'methods' of undefined")
  | Some _ => getMoney_call methods _moneyId
  end.

(** ** Vocabulary of the further properties *)

(** ['0x'] and forty hexadecimal digits, nothing else. *)
Definition is_address (a : string) : bool :=
  match a with
  | String c0 (String c1 r) =>
      Ascii.eqb c0 "0" && Ascii.eqb c1 "x"
      && Nat.eqb (String.length r) 40
      && forallb Spec.isHex (list_ascii_of_string r)
  | _ => false
  end.

(** The active endpoint is one of the two configured ones. *)
Definition endpoint_configured (self : PluginRddn) : Prop :=
  provider self = _primaryProvider self \/ provider self = _secondaryProvider self.


(** Number of interval timers started so far. *)
Definition intervals (w : world) : nat :=
  List.length (filter (fun e => match e with IntervalStarted _ => true | _ => false end)
                      (effects w)).


(** At most one interval timer, and none while [isProcessing] is unset. *)
Definition probe_started_once (self : PluginRddn) (w : world) : Prop :=
  (intervals w <= 1)%nat /\ (isProcessing self = false -> intervals w = 0%nat).

(** What one call of a submitter may add to the log: nothing, the query
    for the sequence number, or that query followed by one transaction
    built with the fixed gas values, the plugin's address and key, and a
    payload satisfying [payload]. *)
Definition one_attempt (self : PluginRddn) (payload : calldata -> Prop) (w w' : world) : Prop :=
  now w' = now w /\
  (log w' = log w \/
   log w' = (log w ++ [(now w, NonceQueried (address self))])%list \/
   exists c params nonce,
     contract self = Some c /\ payload params /\
     log w' = (log w ++ [(now w, NonceQueried (address self));
                         (now w, Submitted
                                   (mkSignedTx
                                      (mkRawTx (address self) (contract_address c) 0 4700000
                                               params nonce)
                                      (privateKey self)))])%list).

(** ** Further sample instances *)

Module Sample2.

(** A record whose expiry, in milliseconds, is past the last date
    JavaScript can represent. *)
Definition far_future : RawTransfer :=
  {| raw_from := Sample.bob_address;
     raw_to := Sample.alice_address;
     raw_amount := "1000";
     raw_condition := "0x0102030405060708090a0b0c0d0e0f101112131415161718191a1b1c1d1e1f20";
     raw_expiry := 8640000000001;
     raw_state := 0;
     raw_direction := 0 |}.

Definition env : Env :=
  {| node_nonce := fun _ n _ => Normal (Z.of_nat n);
     node_accepts := fun _ _ _ => Normal tt;
     deployed := fun _ => Sample.store (Sample.raw Sample.bob_address Sample.alice_address 0 0) |}.

Definition external : PluginRddn :=
  setWeb3 (Sample.scripted [] "ws://shared:8546") (constructor Sample.opts).

Definition uuids : list string :=
  ["f55585e1-0c19-4588-832d-369cfa005640"; "00000000-0000-4000-8000-0000000000ab"].

Definition queries : ContractQueries :=
  {| getRequests_call := fun _ _ _ => Normal (map Transaction.uuidToHex uuids);
     getMoney_call := fun _ => Normal (Js.Str "JPY") |}.

End Sample2.

(** * Properties *)

(** ** The runtime model *)

Lemma add_string_l : forall x v, Js.add (Js.Str x) v = Js.Str (x ++ Js.to_string v).
Proof. reflexivity. Qed.

Lemma add_dash_is_string : forall v, exists s, Js.add v (Js.Str "-") = Js.Str s.
Proof. intros [| |z|x]; simpl; eexists; reflexivity. Qed.

Lemma fold_add_string : forall l x, exists s, fold_left Js.add l (Js.Str x) = Js.Str s.
Proof.
  induction l as [|v l IH]; intros x; simpl.
  - eexists; reflexivity.
  - apply IH.
Qed.

(** Whatever the buffer holds, the sum [unparse] computes is a string. *)
Lemma unparse_sum_is_string : forall buf, exists s, Js.unparse_sum buf = Js.Str s.
Proof.
  intros buf. unfold Js.unparse_sum.
  set (b := Js.bth buf). cbn [fold_left].
  destruct (add_dash_is_string (Js.add (Js.add (Js.add (b 0%nat) (b 1%nat)) (b 2%nat)) (b 3%nat)))
    as [s Hs].
  rewrite Hs. rewrite !add_string_l. eexists; reflexivity.
Qed.

Lemma isHex_cases : forall c,
  Spec.isHex c = true ->
  Js.hexDigitValue c = Some (nibble c) /\
  0 <= nibble c < 16 /\
  Js.hexChar (nibble c) = Js.lower_ascii c /\
  Ascii.eqb c "-" = false.
Proof.
  intros c H.
  destruct c as [[] [] [] [] [] [] [] []];
    vm_compute in H; try discriminate H;
    vm_compute; repeat split; congruence.
Qed.

Lemma isLowerHex_cases : forall c,
  Spec.isLowerHex c = true -> Spec.isHex c = true /\ Js.lower_ascii c = c.
Proof.
  intros c H. unfold Spec.isLowerHex in H.
  apply andb_prop in H. destruct H as [H1 H2].
  split; [exact H1 | now apply Ascii.eqb_eq].
Qed.

Lemma has_shape_weaken : forall (p q : ascii -> bool),
  (forall c, p c = true -> q c = true) ->
  forall shape s, Spec.has_shape p shape s = true -> Spec.has_shape q shape s = true.
Proof.
  intros p q Hpq shape.
  induction shape as [|[] shape IH]; intros [|c r] H; simpl in *;
    try discriminate; try reflexivity.
  - apply andb_prop in H. destruct H as [H1 H2].
    rewrite (Hpq _ H1), (IH _ H2). reflexivity.
  - apply andb_prop in H. destruct H as [H1 H2].
    rewrite H1, (IH _ H2). reflexivity.
Qed.

Lemma lowercase_uuid_is_uuid : forall u,
  Spec.is_lowercase_uuid u = true -> Spec.is_uuid u = true.
Proof.
  intros u. apply has_shape_weaken.
  intros c Hc. apply (isLowerHex_cases c Hc).
Qed.

Lemma toLowerCase_lowercase : forall shape s,
  Spec.has_shape Spec.isLowerHex shape s = true -> Js.toLowerCase s = s.
Proof.
  induction shape as [|[] shape IH]; intros [|c r] H; simpl in *;
    try discriminate; try reflexivity;
    apply andb_prop in H; destruct H as [H1 H2]; rewrite (IH _ H2).
  - destruct (isLowerHex_cases c H1) as [_ ->]. reflexivity.
  - apply Ascii.eqb_eq in H1. subst c. reflexivity.
Qed.

Lemma replace_dashes_hex : forall c r,
  Spec.isHex c = true ->
  Transaction.replace_dashes (String c r) = String c (Transaction.replace_dashes r).
Proof.
  intros c r H. simpl.
  destruct (isHex_cases c H) as (_ & _ & _ & ->). reflexivity.
Qed.

Lemma replace_dashes_dash : forall r,
  Transaction.replace_dashes (String "-" r) = Transaction.replace_dashes r.
Proof. reflexivity. Qed.

Lemma Buffer_from_hex_pair : forall a b r,
  Spec.isHex a = true -> Spec.isHex b = true ->
  Js.Buffer_from_hex (String a (String b r)) = (16 * nibble a + nibble b) :: Js.Buffer_from_hex r.
Proof.
  intros a b r Ha Hb. cbn [Js.Buffer_from_hex].
  destruct (isHex_cases a Ha) as (-> & _).
  destruct (isHex_cases b Hb) as (-> & _).
  reflexivity.
Qed.

Lemma byteToHex_pair : forall a b,
  Spec.isHex a = true -> Spec.isHex b = true ->
  Js.byteToHex (16 * nibble a + nibble b)
  = String (Js.lower_ascii a) (String (Js.lower_ascii b) EmptyString).
Proof.
  intros a b Ha Hb. unfold Js.byteToHex.
  destruct (isHex_cases a Ha) as (_ & Ra & <- & _).
  destruct (isHex_cases b Hb) as (_ & Rb & <- & _).
  replace ((16 * nibble a + nibble b) / 16) with (nibble a)
    by (apply Z.div_unique with (r := nibble b); lia).
  replace ((16 * nibble a + nibble b) mod 16) with (nibble b)
    by (apply Z.mod_unique with (q := nibble a); lia).
  reflexivity.
Qed.

Lemma has_shape_digit : forall p shape c r,
  Spec.has_shape p (true :: shape) (String c r) = p c && Spec.has_shape p shape r.
Proof. reflexivity. Qed.

Lemma has_shape_dash : forall p shape c r,
  Spec.has_shape p (false :: shape) (String c r) = Ascii.eqb c "-" && Spec.has_shape p shape r.
Proof. reflexivity. Qed.

(** Splits [has_shape digit uuid_shape u = true] into the 36 characters of
    [u] and one fact per character. *)
Ltac peel_shape H :=
  cbv [Spec.is_uuid Spec.is_lowercase_uuid Spec.uuid_shape repeat app] in H;
  repeat match type of H with
         | Spec.has_shape _ (_ :: _) ?s = true =>
             destruct s as [|? s]; [discriminate H|];
             first [rewrite has_shape_digit in H | rewrite has_shape_dash in H];
             apply andb_prop in H;
             let Hc := fresh "Hc" in destruct H as [Hc H]
         end;
  match type of H with
  | Spec.has_shape _ [] ?s = true => destruct s; [clear H | discriminate H]
  end;
  repeat match goal with
         | E : Ascii.eqb ?c "-" = true |- _ => apply Ascii.eqb_eq in E; subst c
         end.

(** ** Identifier codec *)

(** A well-formed UUID, sent to the ledger form and back, comes out with
    its digits in lower case. *)
Lemma uuid_round_trip_lowercases : forall u,
  Spec.is_uuid u = true ->
  hexToUuid (Transaction.uuidToHex u) = Js.toLowerCase u.
Proof.
  intros u H. peel_shape H.
  unfold hexToUuid, Transaction.uuidToHex.
  cbn [append Js.slice_from].
  repeat (rewrite replace_dashes_dash || rewrite replace_dashes_hex by assumption).
  cbn [Transaction.replace_dashes].
  rewrite !Buffer_from_hex_pair by assumption.
  cbn [Js.Buffer_from_hex].
  unfold Js.unparse, Js.unparse_sum, Js.bth.
  cbn [nth_error fold_left Js.add Js.to_string].
  rewrite !byteToHex_pair by assumption.
  reflexivity.
Qed.

(** C6 (amended).  For every well-formed UUID [u], converting to the
    ledger id and back yields [u] with its hexadecimal digits lowercased;
    it yields [u] itself when [u] is written with the digits 0-9a-f. *)
Theorem uuid_round_trip : forall u,
  Spec.is_uuid u = true ->
  hexToUuid (Transaction.uuidToHex u) = Js.toLowerCase u /\
  (Spec.is_lowercase_uuid u = true -> hexToUuid (Transaction.uuidToHex u) = u).
Proof.
  intros u H. split.
  - apply uuid_round_trip_lowercases, H.
  - intros Hl. rewrite (uuid_round_trip_lowercases u H).
    apply (toLowerCase_lowercase Spec.uuid_shape), Hl.
Qed.

Lemma uuid_round_trip_witness :
  hexToUuid (Transaction.uuidToHex Sample.uuid) = Js.toLowerCase Sample.uuid /\
  hexToUuid (Transaction.uuidToHex Sample.uuid) = Sample.uuid.
Proof.
  destruct (uuid_round_trip Sample.uuid eq_refl) as [H1 H2].
  split; [exact H1 | apply H2; reflexivity].
Defined.

(** C6 as stated fails on a UUID written with capital digits. *)
Lemma uuid_round_trip_uppercase :
  Spec.is_uuid "F55585E1-0C19-4588-832D-369CFA005640" = true /\
  hexToUuid (Transaction.uuidToHex "F55585E1-0C19-4588-832D-369CFA005640")
  <> "F55585E1-0C19-4588-832D-369CFA005640".
Proof. split; [reflexivity | vm_compute; discriminate]. Qed.

Lemma replace_dashes_filter : forall u,
  Transaction.replace_dashes u
  = string_of_list_ascii (filter not_dash (list_ascii_of_string u)).
Proof.
  induction u as [|c r IH]; simpl; [reflexivity|].
  unfold not_dash at 1. destruct (Ascii.eqb c "-"); simpl; rewrite IH; reflexivity.
Qed.

Lemma uuid_digits : forall u,
  Spec.is_uuid u = true ->
  String.length (Transaction.replace_dashes u) = 32%nat /\
  forallb Spec.isHex (list_ascii_of_string (Transaction.replace_dashes u)) = true.
Proof.
  intros u H. peel_shape H.
  repeat (rewrite replace_dashes_dash || rewrite replace_dashes_hex by assumption).
  cbn [Transaction.replace_dashes String.length list_ascii_of_string forallb].
  split; [reflexivity|].
  repeat match goal with E : Spec.isHex _ = true |- _ => rewrite E; clear E end.
  reflexivity.
Qed.

(** C7 (amended).  [uuidToHex] validates nothing: for every string it
    returns ['0x'] followed by the input without its ['-'] characters; on
    a well-formed UUID that is what the specification asks for, the 32
    digits behind the marker. *)
Theorem uuidToHex_strips_and_prefixes : forall u,
  Transaction.uuidToHex u
  = "0x" ++ string_of_list_ascii (filter not_dash (list_ascii_of_string u)) /\
  (Spec.is_uuid u = true ->
   Spec.toLedgerId u = Normal (Transaction.uuidToHex u) /\
   String.length (Transaction.uuidToHex u) = 34%nat /\
   forallb Spec.isHex (list_ascii_of_string (Js.slice_from 2 (Transaction.uuidToHex u))) = true).
Proof.
  intros u. split.
  - unfold Transaction.uuidToHex. rewrite replace_dashes_filter. reflexivity.
  - intros H. destruct (uuid_digits u H) as [Hlen Hhex].
    unfold Spec.toLedgerId, Transaction.uuidToHex. rewrite H.
    cbn [append Js.slice_from String.length]. rewrite Hlen.
    repeat split; try reflexivity. exact Hhex.
Qed.

Lemma uuidToHex_strips_and_prefixes_witness :
  Transaction.uuidToHex Sample.uuid = Sample.ledgerId /\
  Spec.toLedgerId Sample.uuid = Normal Sample.ledgerId /\
  String.length (Transaction.uuidToHex Sample.uuid) = 34%nat.
Proof.
  destruct (uuidToHex_strips_and_prefixes Sample.uuid) as [H1 H2].
  specialize (H2 eq_refl). destruct H2 as (H2 & H3 & _).
  split; [reflexivity | split; [exact H2 | exact H3]].
Defined.

(** C7 as stated fails: a string that is no UUID is converted, not refused. *)
Lemma uuidToHex_accepts_malformed :
  Spec.is_uuid "not-a-uuid" = false /\
  Spec.toLedgerId "not-a-uuid" = Throw (Error "MalformedIdentifier") /\
  Transaction.uuidToHex "not-a-uuid" = "0xnotauuid" /\
  (exists t, getTransfer (Sample.unconnected (Sample.raw Sample.alice_address Sample.bob_address 0 0))
               "not-a-uuid" = Normal t).
Proof.
  split; [reflexivity | split; [reflexivity | split; [reflexivity|]]].
  eexists. vm_compute. reflexivity.
Qed.

(** ** Transfer projection *)

(** C5 (amended).  When the record read from the contract has the zero
    address as its sender, [_getRddnTransfer] returns, without throwing,
    the transfer whose fields are all empty or zero except [id], which is
    the UUID form of the ledger id that was asked for. *)
Theorem getRddnTransfer_not_found : forall self c _id r,
  contract self = Some c ->
  getTransfer_call c _id = Normal r ->
  raw_from r = zero_address ->
  _getRddnTransfer self _id = Normal (Spec.set_id (hexToUuid _id) Spec.not_found).
Proof.
  intros self c _id r Hc Hr Hz.
  unfold _getRddnTransfer. rewrite Hc, Hr. cbn [cbind].
  rewrite Hz, String.eqb_refl. reflexivity.
Qed.

Lemma getRddnTransfer_not_found_witness :
  _getRddnTransfer (Sample.connected [] (Sample.raw zero_address zero_address 0 0)) Sample.ledgerId
  = Normal (Spec.set_id Sample.uuid Spec.not_found).
Proof.
  apply (getRddnTransfer_not_found
           (Sample.connected [] (Sample.raw zero_address zero_address 0 0))
           (Sample.store (Sample.raw zero_address zero_address 0 0))
           Sample.ledgerId
           (Sample.raw zero_address zero_address 0 0));
    reflexivity.
Defined.

(** C5 as stated fails: the [id] of the "not found" transfer is not empty. *)
Lemma not_found_keeps_id :
  raw_from (Sample.raw zero_address zero_address 0 0) = zero_address /\
  exists t,
    _getRddnTransfer (Sample.connected [] (Sample.raw zero_address zero_address 0 0)) Sample.ledgerId
    = Normal t /\
    id t = "f55585e1-0c19-4588-832d-369cfa005640" /\
    t <> Spec.not_found.
Proof.
  split; [reflexivity|].
  eexists. split; [vm_compute; reflexivity|].
  split; [reflexivity | discriminate].
Qed.

Lemma nth_error_nil_none : forall (A : Type) (n : nat), nth_error (@nil A) n = None.
Proof. intros A [|n]; reflexivity. Qed.

Lemma stateToName_table : forall code,
  stateToName code =
  match code with
  | 0 => Js.Str "prepare"
  | 1 => Js.Str "fulfill"
  | 2 => Js.Str "abort"
  | _ => Js.Undefined
  end.
Proof.
  intros code. unfold stateToName, array_get.
  destruct (code <? 0) eqn:Hneg.
  - apply Z.ltb_lt in Hneg. destruct code; try lia; reflexivity.
  - apply Z.ltb_ge in Hneg.
    destruct (Z.to_nat code) as [|[|[|n]]] eqn:Hn.
    + replace code with 0 by lia. reflexivity.
    + replace code with 1 by lia. reflexivity.
    + replace code with 2 by lia. reflexivity.
    + cbn [nth_error]. rewrite nth_error_nil_none.
      destruct code as [|p|p]; try lia.
      destruct p as [[p|p|]|[p|p|]|]; try lia; reflexivity.
Qed.

Lemma directionToName_table : forall code,
  directionToName code =
  match code with
  | 0 => Js.Str "deposit"
  | 1 => Js.Str "withdraw"
  | _ => Js.Undefined
  end.
Proof.
  intros code. unfold directionToName, array_get.
  destruct (code <? 0) eqn:Hneg.
  - apply Z.ltb_lt in Hneg. destruct code; try lia; reflexivity.
  - apply Z.ltb_ge in Hneg.
    destruct (Z.to_nat code) as [|[|n]] eqn:Hn.
    + replace code with 0 by lia. reflexivity.
    + replace code with 1 by lia. reflexivity.
    + cbn [nth_error]. rewrite nth_error_nil_none.
      destruct code as [|p|p]; try lia.
      destruct p as [p|p|]; try lia; reflexivity.
Qed.

Lemma Date_toISOString_in_range : forall ms,
  Z.abs ms <= 8640000000000000 -> exists s, Date_toISOString ms = Normal s.
Proof.
  intros ms H. unfold Date_toISOString.
  destruct (8640000000000000 <? Z.abs ms) eqn:E; [apply Z.ltb_lt in E; lia|].
  destruct (Encoding.civil_from_days (ms / 86400000)) as [[y m] d].
  eexists; reflexivity.
Qed.

(** C8 (amended).  The projection looks the state and direction codes up
    in the tables [0:prepare, 1:fulfill, 2:abort] and [0:deposit,
    1:withdraw]; a code outside its table raises nothing: the Transfer is
    produced with [state], respectively [custom.direction], undefined. *)
Theorem getRddnTransfer_codes : forall self c _id r m p,
  contract self = Some c ->
  getTransfer_call c _id = Normal r ->
  raw_from r <> zero_address ->
  getMoneyIdByTransferId_call c _id = Normal m ->
  getIlpPacket_call c _id = Normal p ->
  Z.abs (raw_expiry r * 1000) <= 8640000000000000 ->
  exists t,
    _getRddnTransfer self _id = Normal t /\
    state t = match raw_state r with
              | 0 => Js.Str "prepare"
              | 1 => Js.Str "fulfill"
              | 2 => Js.Str "abort"
              | _ => Js.Undefined
              end /\
    custom t = CustomObject
                 (mkCustom m match raw_direction r with
                             | 0 => Js.Str "deposit"
                             | 1 => Js.Str "withdraw"
                             | _ => Js.Undefined
                             end).
Proof.
  intros self c _id r m p Hc Hr Hz Hm Hp Hexp.
  unfold _getRddnTransfer. rewrite Hc, Hr. cbn [cbind].
  destruct (String.eqb_spec (raw_from r) zero_address) as [E|_]; [contradiction|].
  rewrite Hm, Hp. cbn [cbind].
  destruct (Date_toISOString_in_range _ Hexp) as [iso ->]. cbn [cbind].
  eexists. split; [reflexivity|].
  cbn [state custom]. rewrite stateToName_table, directionToName_table.
  split; reflexivity.
Qed.

Lemma getRddnTransfer_codes_witness :
  exists t,
    _getRddnTransfer
      (Sample.connected [] (Sample.raw Sample.alice_address Sample.bob_address 7 1))
      Sample.ledgerId = Normal t /\
    state t = Js.Undefined /\
    custom t = CustomObject (mkCustom "JPY-1" (Js.Str "withdraw")).
Proof.
  apply (getRddnTransfer_codes
           (Sample.connected [] (Sample.raw Sample.alice_address Sample.bob_address 7 1))
           (Sample.store (Sample.raw Sample.alice_address Sample.bob_address 7 1))
           Sample.ledgerId
           (Sample.raw Sample.alice_address Sample.bob_address 7 1)
           "JPY-1" "0x68656c6c6f");
    try reflexivity.
  - vm_compute. discriminate.
  - vm_compute. discriminate.
Defined.

(** C8 as stated fails: state code 3 and direction code 2 are projected,
    with both names undefined, where the specification wants an error. *)
Lemma out_of_range_codes_projected :
  Spec.stateName 3 = Throw (Error "ProtocolMismatch") /\
  exists t,
    _getRddnTransfer
      (Sample.connected [] (Sample.raw Sample.alice_address Sample.bob_address 3 2))
      Sample.ledgerId = Normal t /\
    state t = Js.Undefined /\
    custom t = CustomObject (mkCustom "JPY-1" Js.Undefined).
Proof.
  split; [reflexivity|].
  eexists. split; [vm_compute; reflexivity|].
  split; reflexivity.
Qed.

(** ** Event router *)

(** C1 (amended).  [_processUpdate] emits exactly one event.  It is
    [incoming_{state}] when [transfer.to] is the plugin's own account,
    otherwise [outgoing_{state}] when [transfer.from] is, and in both of
    these the transfer carries [ledger] set to the prefix and, only when
    the state is [fulfill], is followed by the fulfillment and the
    transfer's [ilp].  When neither end is the own account the event is
    [event_{state}] with the transfer as it was (and the fulfillment when
    the state is [fulfill]).  [direction] is never set. *)
Theorem processUpdate_dispatch : forall self transfer fulfillment w,
  let fulfilled := Js.value_eqb (state transfer) (Js.Str "fulfill") in
  let stamped := set_ledger (Js.Str (_prefix self)) transfer in
  let directed dir :=
    Emitted (dir ++ "_" ++ Js.to_string (state transfer))
            (ATransfer stamped ::
             if fulfilled then [AValue fulfillment; AValue (Js.Str (ilp transfer))] else []) in
  let undirected :=
    Emitted ("event_" ++ Js.to_string (state transfer))
            (ATransfer transfer :: if fulfilled then [AValue fulfillment] else []) in
  _processUpdate self transfer fulfillment w =
    (Normal tt,
     mkWorld (now w)
       (log w ++ [(now w,
                   if String.eqb (to transfer) (getAccount self) then directed "incoming"
                   else if String.eqb (from transfer) (getAccount self) then directed "outgoing"
                   else undirected)]))
  /\ direction stamped = direction transfer.
Proof.
  intros self transfer fulfillment w. cbv zeta.
  split; [|reflexivity].
  unfold _processUpdate, emit, perform.
  destruct (String.eqb (to transfer) (getAccount self));
    destruct (String.eqb (from transfer) (getAccount self));
    cbn [Js.truthy String.eqb negb Ascii.eqb Bool.eqb];
    change (state (set_ledger (Js.Str (_prefix self)) transfer)) with (state transfer);
    change (ilp (set_ledger (Js.Str (_prefix self)) transfer)) with (ilp transfer);
    destruct (state transfer) as [| |z|s]; cbn [Js.value_eqb]; try reflexivity;
    destruct (String.eqb_spec s "fulfill") as [->|_]; reflexivity.
Qed.

(** C1 as stated fails when the plugin's account is both ends of the
    transfer: the event is [incoming_prepare], not [outgoing_prepare]. *)
Lemma self_transfer_is_incoming :
  let self := Sample.connected [] (Sample.raw Sample.alice_address Sample.alice_address 0 0) in
  exists t,
    _getRddnTransfer self Sample.ledgerId = Normal t /\
    from t = getAccount self /\
    effects (snd (onUpdate self Sample.ledgerId Sample.w0))
    = [Emitted "incoming_prepare" [ATransfer (set_ledger (Js.Str "test.rddn.") t)]].
Proof.
  eexists. split; [vm_compute; reflexivity|].
  split; vm_compute; reflexivity.
Qed.

(** The two notification handlers do nothing but resolve and dispatch. *)
Lemma onUpdate_dispatches : forall self uuid t w,
  _getRddnTransfer self uuid = Normal t ->
  onUpdate self uuid w = _processUpdate self t Js.Undefined w.
Proof. intros self uuid t w H. unfold onUpdate, bind, lift. rewrite H. reflexivity. Qed.

Lemma onFulfill_dispatches : forall self uuid fulfillment t w,
  _getRddnTransfer self uuid = Normal t ->
  onFulfill self uuid fulfillment w =
  _processUpdate self t
    (Js.Str (Encoding.base64url (Js.Buffer_from_hex (Js.slice_from 2 fulfillment)))) w.
Proof. intros self uuid f t w H. unfold onFulfill, bind, lift. rewrite H. reflexivity. Qed.

Lemma notification_without_record_emits_nothing : forall self uuid e w,
  _getRddnTransfer self uuid = Throw e ->
  onUpdate self uuid w = (Throw e, w).
Proof. intros self uuid e w H. unfold onUpdate, bind, lift. rewrite H. reflexivity. Qed.

(** ** Forced re-emission *)

(** Unless the own account is both ends of the transfer, one of the two
    conditions of [forceEmitPrepare] reaches [_.includes], and the call
    ends there. *)
Lemma forceEmitPrepare_reaches_underscore : forall self transferId t w,
  getTransfer self transferId = Normal t ->
  String.eqb (from t) (getAccount self) && String.eqb (to t) (getAccount self) = false ->
  forceEmitPrepare self transferId w = (Throw (ReferenceError "_ is not defined"), w).
Proof.
  intros self transferId t w Ht Hends.
  unfold forceEmitPrepare, try_catch, bind, lift. rewrite Ht.
  destruct (String.eqb (from t) (getAccount self)); cbn [or_else underscore cbind].
  - cbn [andb] in Hends. rewrite Hends. reflexivity.
  - reflexivity.
Qed.

Lemma forceEmitPrepare_propagates : forall self transferId e w,
  getTransfer self transferId = Throw e ->
  forceEmitPrepare self transferId w = (Throw e, w).
Proof.
  intros self transferId e w H.
  unfold forceEmitPrepare, try_catch, bind, lift. rewrite H. reflexivity.
Qed.

(** [forceEmitFulfill], which compares with the own account only, does
    report and emit in both directions. *)
Lemma forceEmitFulfill_outgoing : forall self transferId t fulfillment ilp w,
  getTransfer self transferId = Normal t ->
  String.eqb (from t) (getAccount self) = true ->
  String.eqb (to t) (getAccount self) = false ->
  forceEmitFulfill self transferId fulfillment ilp w =
  (Normal true,
   mkWorld (now w)
     (log w ++ [(now w, Emitted "outgoing_fulfill"
                          [ATransfer (set_direction (Js.Str "outgoing") t);
                           AValue fulfillment; AValue ilp])])).
Proof.
  intros self transferId t fulfillment ilp w Ht Hf Hto.
  unfold forceEmitFulfill, try_catch, bind, lift. rewrite Ht, Hf, Hto. reflexivity.
Qed.

(** C9.  A transfer that resolves, sent by the plugin's own account to
    someone else: [forceEmitPrepare] neither returns [true] nor emits
    [outgoing_prepare]; it rejects with a ReferenceError.  The same
    happens with a sender that is on the outgoing allow-list. *)
Theorem forceEmitPrepare_outgoing_throws :
  let r := Sample.raw Sample.alice_address Sample.bob_address 0 0 in
  let self := Sample.connected [] r in
  let r' := Sample.raw Sample.bob_address Sample.alice_address 0 0 in
  (exists t, getTransfer self Sample.uuid = Normal t /\ from t = getAccount self) /\
  forceEmitPrepare self Sample.uuid Sample.w0
  = (Throw (ReferenceError "_ is not defined"), Sample.w0) /\
  (exists t, getTransfer (Sample.listed r') Sample.uuid = Normal t /\
             outgoingList (Sample.listed r') = Some [from t]) /\
  forceEmitPrepare (Sample.listed r') Sample.uuid Sample.w0
  = (Throw (ReferenceError "_ is not defined"), Sample.w0).
Proof.
  cbv zeta.
  split; [eexists; split; vm_compute; reflexivity|].
  split; [vm_compute; reflexivity|].
  split; [eexists; split; vm_compute; reflexivity|].
  vm_compute; reflexivity.
Qed.

(** ** Transaction submitter *)

Lemma fulfillCondition_classifies : forall self transferId fulfillment w e w',
  Transaction.fulfillCondition (contract self) transferId fulfillment (address self)
    (privateKey self) (node_handle self) (private self) w = (Throw e, w') ->
  _fulfillCondition self transferId fulfillment w =
  (Throw (if Spec.conflict_text (message_of e) then PastSequenceError else e), w').
Proof.
  intros self transferId fulfillment w e w' H.
  unfold _fulfillCondition, try_catch. rewrite H.
  unfold Spec.conflict_text, throw.
  destruct (0 <=? Js.indexOf (message_of e) "replacement transaction underpriced");
    [reflexivity|].
  destruct (0 <=? Js.indexOf (message_of e) "known transaction"); reflexivity.
Qed.


(** [sendTransfer] knows one of the two texts only. *)
Lemma sendTransfer_classifies : forall self t w e w',
  isConnected self = true ->
  Transaction.sendTransfer (contract self) t (address self) (privateKey self)
    (_prefix self) (node_handle self) (private self) w = (Throw e, w') ->
  sendTransfer self t w =
  (Throw (if 0 <=? Js.indexOf (message_of e) "replacement transaction underpriced"
          then PastSequenceError else e), w').
Proof.
  intros self t w e w' Hc H.
  unfold sendTransfer. rewrite Hc. cbn [negb].
  unfold try_catch. rewrite H. unfold throw.
  destruct (0 <=? Js.indexOf (message_of e) "replacement transaction underpriced");
    reflexivity.
Qed.

(** C2.  The node rejects with a text containing "known transaction":
    [_fulfillCondition] and [_rejectIncomingTransfer] turn it into a
    PastSequenceError, [sendTransfer] hands the node's error on as it is. *)
Theorem sendTransfer_known_transaction :
  let rejection := Error "known transaction: 0xf55585e10c194588832d369cfa005640" in
  let self := Sample.connected [Throw rejection]
                (Sample.raw Sample.alice_address Sample.bob_address 0 0) in
  Spec.conflict_text (message_of rejection) = true /\
  fst (sendTransfer self Sample.outgoing_transfer Sample.w0) = Throw rejection /\
  fst (_fulfillCondition self Sample.uuid "AQID" Sample.w0) = Throw PastSequenceError /\
  fst (_rejectIncomingTransfer self Sample.uuid Sample.w0) = Throw PastSequenceError /\
  submissions (snd (sendTransfer self Sample.outgoing_transfer Sample.w0)) = 1%nat.
Proof.
  cbv zeta.
  split; [vm_compute; reflexivity|].
  split; [vm_compute; reflexivity|].
  split; [vm_compute; reflexivity|].
  split; vm_compute; reflexivity.
Qed.

(** C10.  With neither [web3] nor [extWeb3] bound, [sendTransfer] throws
    "must be connected" and touches nothing.  [_fulfillCondition] and
    [_rejectIncomingTransfer] (and the retrying entry points around them)
    have no such check: they go straight into the submitter of
    transaction.js, and what comes back is the TypeError raised there when
    the missing contract or handle is dereferenced. *)
Theorem connectivity_precheck : forall self transfer transferId fulfillment ilp fuel w,
  web3 self = None ->
  extWeb3 self = None ->
  sendTransfer self transfer w = (Throw (Error "must be connected"), w) /\
  (exists m,
     Transaction.fulfillCondition (contract self) transferId fulfillment (address self)
       (privateKey self) (node_handle self) (private self) w = (Throw (TypeError m), w) /\
     _fulfillCondition self transferId fulfillment w = (Throw (TypeError m), w) /\
     fulfillCondition (S fuel) self transferId fulfillment ilp w = Some (Throw (TypeError m), w)) /\
  (exists m,
     Transaction.rejectIncomingTransfer (contract self) transferId (address self)
       (privateKey self) (node_handle self) (private self) w = (Throw (TypeError m), w) /\
     _rejectIncomingTransfer self transferId w = (Throw (TypeError m), w) /\
     rejectIncomingTransfer (S fuel) self transferId w = Some (Throw (TypeError m), w)).
Proof.
  intros self transfer transferId fulfillment ilp fuel w Hw He.
  split; [|split].
  - unfold sendTransfer, isConnected. rewrite Hw, He. reflexivity.
  - cbn [fulfillCondition].
    unfold _fulfillCondition, Transaction.fulfillCondition, node_handle.
    rewrite Hw, He.
    destruct (contract self) as [c|]; eexists;
      (split; [|split]); vm_compute; reflexivity.
  - cbn [rejectIncomingTransfer].
    unfold _rejectIncomingTransfer, Transaction.rejectIncomingTransfer, node_handle.
    rewrite Hw, He.
    destruct (contract self) as [c|]; eexists;
      (split; [|split]); vm_compute; reflexivity.
Qed.

Lemma connectivity_precheck_witness :
  let self := Sample.unconnected (Sample.raw Sample.alice_address Sample.bob_address 0 0) in
  sendTransfer self Sample.outgoing_transfer Sample.w0
  = (Throw (Error "must be connected"), Sample.w0) /\
  (exists m, _fulfillCondition self Sample.uuid "AQID" Sample.w0
             = (Throw (TypeError m), Sample.w0)) /\
  (exists m, _rejectIncomingTransfer self Sample.uuid Sample.w0
             = (Throw (TypeError m), Sample.w0)).
Proof.
  cbv zeta.
  destruct (connectivity_precheck
              (Sample.unconnected (Sample.raw Sample.alice_address Sample.bob_address 0 0))
              Sample.outgoing_transfer Sample.uuid "AQID" Js.Undefined 0%nat Sample.w0
              eq_refl eq_refl) as (H1 & (m & _ & H2 & _) & (m' & _ & H3 & _)).
  split; [exact H1 | split; [exists m; exact H2 | exists m'; exact H3]].
Defined.

(** ** Retry *)

Lemma fulfillCondition_done : forall fuel self transferId fulfillment ilp w w1,
  _fulfillCondition self transferId fulfillment w = (Normal tt, w1) ->
  fulfillCondition (S fuel) self transferId fulfillment ilp w = Some (Normal tt, w1).
Proof. intros * H. cbn [fulfillCondition]. rewrite H. reflexivity. Qed.

(** An error that is no sequence conflict goes to the caller at once:
    no timer, no second submission. *)
Lemma fulfillCondition_other_error : forall fuel self transferId fulfillment ilp w e w1,
  _fulfillCondition self transferId fulfillment w = (Throw e, w1) ->
  is_PastSequenceError e = false ->
  fulfillCondition (S fuel) self transferId fulfillment ilp w = Some (Throw e, w1).
Proof. intros * H He. cbn [fulfillCondition]. rewrite H, He. reflexivity. Qed.

(** After a sequence conflict the same call is made again, in the world
    in which the timer has been started and nothing else has happened. *)
Lemma fulfillCondition_conflict : forall fuel self transferId fulfillment ilp w w1,
  _fulfillCondition self transferId fulfillment w = (Throw PastSequenceError, w1) ->
  fulfillCondition (S fuel) self transferId fulfillment ilp w =
  fulfillCondition fuel self transferId fulfillment ilp
    (mkWorld (now w1) (log w1 ++ [(now w1, TimerStarted 500)])).
Proof. intros * H. cbn [fulfillCondition]. rewrite H. reflexivity. Qed.

Lemma fulfillCondition_more_fuel : forall fuel self transferId fulfillment ilp w r,
  fulfillCondition fuel self transferId fulfillment ilp w = Some r ->
  fulfillCondition (S fuel) self transferId fulfillment ilp w = Some r.
Proof.
  induction fuel as [|fuel IH]; intros * H; [discriminate H|].
  cbn [fulfillCondition] in H.
  remember (S fuel) as n. cbn [fulfillCondition]. subst n.
  destruct (_fulfillCondition self transferId fulfillment w) as [[r0|e] w1]; [exact H|].
  destruct (is_PastSequenceError e); [|exact H].
  cbn [_sleep] in *. apply IH, H.
Qed.

Lemma submissions_snoc : forall n l t e,
  submissions (mkWorld n (l ++ [(t, e)])) =
  (submissions (mkWorld n l) + match e with Submitted _ => 1 | _ => 0 end)%nat.
Proof.
  intros n l t e. unfold submissions, effects. cbn [log].
  rewrite map_app, filter_app, length_app. cbn [map snd filter].
  destruct e; cbn [List.length]; reflexivity.
Qed.

Lemma nonce_queries_snoc : forall n l t e,
  nonce_queries (mkWorld n (l ++ [(t, e)])) =
  (nonce_queries (mkWorld n l) + match e with NonceQueried _ => 1 | _ => 0 end)%nat.
Proof.
  intros n l t e. unfold nonce_queries, effects. cbn [log].
  rewrite map_app, filter_app, length_app. cbn [map snd filter].
  destruct e; cbn [List.length]; reflexivity.
Qed.

Lemma submissions_attempt : forall n l t1 t2 a tx,
  submissions (mkWorld n (l ++ [(t1, NonceQueried a); (t2, Submitted tx)])) =
  S (submissions (mkWorld n l)).
Proof.
  intros n l t1 t2 a tx.
  change [(t1, NonceQueried a); (t2, Submitted tx)]
    with ([(t1, NonceQueried a)] ++ [(t2, Submitted tx)])%list.
  rewrite app_assoc, !submissions_snoc. lia.
Qed.

(** One attempt of a connected plugin: the sequence number is read, the
    transaction is signed and submitted, and the node's answer to that
    submission is the outcome. *)
Lemma fulfill_attempt : forall self c h transferId fulfillment w z,
  contract self = Some c ->
  web3 self = Some h ->
  (Js.indexOf (privateKey self) "0x" <? 0) = false ->
  getTransactionCount h (nonce_queries w) (address self) = Normal z ->
  let tx := mkSignedTx
              (mkRawTx (address self) (contract_address c)
                 Transaction.gasPrice Transaction.gasLimit
                 (fulfillTransfer (Transaction.uuidToHex transferId) (fulfillmentToHex fulfillment)) z)
              (privateKey self) in
  Transaction.fulfillCondition (contract self) transferId fulfillment (address self)
    (privateKey self) (node_handle self) (private self) w =
  (sendSignedTransaction h (submissions w) tx,
   mkWorld (now w) (log w ++ [(now w, NonceQueried (address self)); (now w, Submitted tx)])).
Proof.
  intros self c h transferId fulfillment w z Hc Hw Hk Hn tx.
  unfold Transaction.fulfillCondition, node_handle. rewrite Hc, Hw.
  unfold Transaction.encodeABI, bind, ret.
  unfold Transaction.pendingNonce. rewrite Hn.
  unfold Transaction.sign. rewrite Hk. unfold ret, try_catch, Transaction.send.
  cbn [now log].
  destruct w as [n l].
  rewrite submissions_snoc. cbn [now log]. rewrite Nat.add_0_r.
  rewrite <- app_assoc. cbn [app]. fold tx.
  destruct (sendSignedTransaction h (submissions {| now := n; log := l |}) tx) as [[]|e];
    reflexivity.
Qed.

(** Retrying is not bounded by the plugin: however many sequence
    conflicts the node answers with before it accepts, the call goes on,
    submits once per answer and returns normally, and the clock is where
    it was at the start. *)
Lemma fulfillCondition_converges : forall k self c h transferId fulfillment ilp w,
  contract self = Some c ->
  web3 self = Some h ->
  (Js.indexOf (privateKey self) "0x" <? 0) = false ->
  (forall n a, exists z, getTransactionCount h n a = Normal z) ->
  (forall i tx, (i < k)%nat ->
     exists e, sendSignedTransaction h (submissions w + i) tx = Throw e /\
               Spec.conflict_text (message_of e) = true) ->
  (forall tx, sendSignedTransaction h (submissions w + k) tx = Normal tt) ->
  exists w',
    fulfillCondition (S k) self transferId fulfillment ilp w = Some (Normal tt, w') /\
    submissions w' = (submissions w + S k)%nat /\
    now w' = now w.
Proof.
  induction k as [|k IH]; intros self c h transferId fulfillment ilp w Hc Hw Hk Hn Hbad Hok.
  - destruct (Hn (nonce_queries w) (address self)) as [z Hz].
    pose proof (fulfill_attempt self c h transferId fulfillment w z Hc Hw Hk Hz) as Ha.
    cbv zeta in Ha. rewrite Nat.add_0_r in Hok. rewrite Hok in Ha.
    eexists. split.
    + apply fulfillCondition_done. unfold _fulfillCondition, try_catch. rewrite Ha. reflexivity.
    + destruct w as [n l]. cbn [now log]. split; [|reflexivity].
      rewrite submissions_attempt. lia.
  - destruct (Hn (nonce_queries w) (address self)) as [z Hz].
    pose proof (fulfill_attempt self c h transferId fulfillment w z Hc Hw Hk Hz) as Ha.
    cbv zeta in Ha.
    match type of Ha with
    | _ = (sendSignedTransaction h _ ?t, _) =>
        destruct (Hbad 0%nat t (Nat.lt_0_succ k)) as (e & He & Hconf)
    end.
    rewrite Nat.add_0_r in He. rewrite He in Ha.
    apply fulfillCondition_classifies in Ha. rewrite Hconf in Ha.
    rewrite (fulfillCondition_conflict _ _ _ _ _ _ _ Ha).
    cbn [now log].
    match goal with
    | |- exists w', fulfillCondition _ _ _ _ _ ?w2 = _ /\ _ =>
        assert (Hsub : submissions w2 = S (submissions w))
    end.
    { destruct w as [n l]. cbn [now log].
      rewrite submissions_snoc, submissions_attempt. lia. }
    match goal with
    | |- exists w', fulfillCondition _ _ _ _ _ ?w2 = _ /\ _ =>
        destruct (IH self c h transferId fulfillment ilp w2 Hc Hw Hk Hn) as (w' & Hrun & Hcount & Hnow)
    end.
    + intros i tx Hi. rewrite Hsub.
      replace (S (submissions w) + i)%nat with (submissions w + S i)%nat by lia.
      apply Hbad. lia.
    + intros tx. rewrite Hsub.
      replace (S (submissions w) + k)%nat with (submissions w + S k)%nat by lia.
      apply Hok.
    + exists w'. split; [exact Hrun|]. split; [rewrite Hcount, Hsub; lia | exact Hnow].
Qed.

Lemma fulfillCondition_converges_witness :
  exists w',
    fulfillCondition 3
      (Sample.connected [Throw (Error "known transaction: 0x01");
                         Throw (Error "replacement transaction underpriced")]
         (Sample.raw Sample.bob_address Sample.alice_address 0 0))
      Sample.uuid "AQID" Js.Undefined Sample.w0 = Some (Normal tt, w') /\
    submissions w' = 3%nat /\
    now w' = 0.
Proof.
  apply (fulfillCondition_converges 2
           (Sample.connected [Throw (Error "known transaction: 0x01");
                              Throw (Error "replacement transaction underpriced")]
              (Sample.raw Sample.bob_address Sample.alice_address 0 0))
           (Sample.store (Sample.raw Sample.bob_address Sample.alice_address 0 0))
           (Sample.scripted [Throw (Error "known transaction: 0x01");
                             Throw (Error "replacement transaction underpriced")]
              "ws://node-1:8546")); try reflexivity.
  - intros n a. eexists; reflexivity.
  - intros i tx Hi.
    destruct i as [|[|i]]; [| |lia]; eexists; split; vm_compute; reflexivity.
Defined.

(** C3.  The node answers the first submission with a sequence conflict
    and accepts the second.  Both retrying entry points start the 500 ms
    timer and submit again without waiting for it: the two submissions
    carry the same clock value, and the clock has not moved when the call
    returns.  Waiting as section 4.4 describes puts the second submission
    500 ms after the first. *)
Theorem retry_does_not_wait :
  let conflict := Error "replacement transaction underpriced" in
  let self := Sample.connected [Throw conflict]
                (Sample.raw Sample.bob_address Sample.alice_address 0 0) in
  (exists w,
     fulfillCondition 2 self Sample.uuid "AQID" Js.Undefined Sample.w0 = Some (Normal tt, w) /\
     In (TimerStarted 500) (effects w) /\
     submission_times w = [0; 0] /\ now w = 0) /\
  (exists w,
     rejectIncomingTransfer 2 self Sample.uuid Sample.w0 = Some (Normal tt, w) /\
     In (TimerStarted 500) (effects w) /\
     submission_times w = [0; 0] /\ now w = 0) /\
  (exists w,
     Spec.retry 2 (_fulfillCondition self Sample.uuid "AQID") Sample.w0 = Some (Normal tt, w) /\
     submission_times w = [0; 500] /\ now w = 500).
Proof.
  cbv zeta. split; [|split]; eexists.
  - split; [vm_compute; reflexivity|].
    split; [vm_compute; tauto|]. split; reflexivity.
  - split; [vm_compute; reflexivity|].
    split; [vm_compute; tauto|]. split; reflexivity.
  - split; [vm_compute; reflexivity|]. split; reflexivity.
Qed.

(** ** Connection manager *)

(** C4.  A tick of the health probe on a plugin connected through the
    primary endpoint, with the liveness query rejected: the link is
    closed, the handle dropped, the active endpoint becomes the secondary
    one and a socket is opened towards it.  A tick on a plugin without a
    handle switches the active endpoint (secondary after primary, primary
    otherwise) and opens a socket towards the new one.  The probe is set
    up with a period of 5000 ms. *)
Theorem heartbeat_failover : forall self w,
  (forall h e,
     web3 self = Some h ->
     provider self = _primaryProvider self ->
     heartbeat_tick self (Throw e) w =
     (Normal (set_provider (_secondaryProvider self) (set_web3 None self)),
      mkWorld (now w)
        (log w ++ [(now w, LivenessQueried (endpoint h));
                   (now w, SocketClosed (endpoint h));
                   (now w, SocketOpened (_secondaryProvider self))]))) /\
  (forall listening,
     web3 self = None ->
     heartbeat_tick self listening w =
     (Normal (flip_provider self),
      mkWorld (now w) (log w ++ [(now w, SocketOpened (provider (flip_provider self)))])) /\
     provider (flip_provider self) =
     (if String.eqb (provider self) (_primaryProvider self)
      then _secondaryProvider self else _primaryProvider self) /\
     web3 (flip_provider self) = None) /\
  (extWeb3 self = None ->
   isProcessing self = false ->
   snd (_heartbeat self w) = mkWorld (now w) (log w ++ [(now w, IntervalStarted 5000)])).
Proof.
  intros self w. split; [|split].
  - intros h e Hw Hp.
    unfold heartbeat_tick, probe_reconnect, bind. rewrite Hw. cbn [ret].
    rewrite Hw. unfold on_liveness_failure. rewrite Hw.
    unfold flip_provider.
    cbn [provider set_web3 _primaryProvider _secondaryProvider].
    rewrite Hp, String.eqb_refl.
    cbv [bind perform createWebsocketProvider ret now log provider set_provider].
    rewrite <- !app_assoc. reflexivity.
  - intros listening Hw.
    assert (Hflip : web3 (flip_provider self) = None).
    { unfold flip_provider.
      destruct (String.eqb (provider self) (_primaryProvider self)); exact Hw. }
    split; [|split].
    + unfold heartbeat_tick, probe_reconnect, bind. rewrite Hw.
      unfold createWebsocketProvider, perform, ret. rewrite Hflip. reflexivity.
    + unfold flip_provider.
      destruct (String.eqb (provider self) (_primaryProvider self)); reflexivity.
    + exact Hflip.
  - intros He Hp. unfold _heartbeat. rewrite He, Hp. reflexivity.
Qed.

(** When the socket opened by the probe connects, [connect()] runs: it
    opens the link to the endpoint that is active then and binds the
    handle to it. *)
Lemma connect_targets_active_endpoint : forall env self w,
  web3 self = None ->
  extWeb3 self = None ->
  exists self' w',
    connect env self w = (Normal self', w') /\
    web3 self' = Some (new_Web3 env (provider self)) /\
    provider self' = provider self /\
    In (SocketOpened (provider self)) (effects w').
Proof.
  intros env self w Hw He. unfold connect. rewrite He, Hw.
  destruct (isProcessing self) eqn:Hp.
  - eexists. eexists. split.
    + unfold bind, perform, subscribe_all, _heartbeat, emit, ret, bind, perform.
      cbn [extWeb3 set_contract set_web3 isProcessing]. rewrite He, Hp. reflexivity.
    + split; [reflexivity|]. split; [reflexivity|].
      unfold effects. cbn [log now]. rewrite !map_app. cbn [map snd].
      rewrite !in_app_iff. cbn [In]. tauto.
  - eexists. eexists. split.
    + unfold bind, perform, subscribe_all, _heartbeat, emit, ret, bind, perform.
      cbn [extWeb3 set_contract set_web3 isProcessing]. rewrite He, Hp. reflexivity.
    + split; [reflexivity|]. split; [reflexivity|].
      unfold effects. cbn [log now]. rewrite !map_app. cbn [map snd].
      rewrite !in_app_iff. cbn [In]. tauto.
Qed.

Lemma heartbeat_failover_witness :
  let r := Sample.raw Sample.alice_address Sample.bob_address 0 0 in
  (exists self' w',
     heartbeat_tick (Sample.connected [] r) (Throw (Error "connection not open")) Sample.w0
     = (Normal self', w') /\
     provider self' = "ws://node-2:8546" /\
     effects w' = [LivenessQueried "ws://node-1:8546"; SocketClosed "ws://node-1:8546";
                   SocketOpened "ws://node-2:8546"]) /\
  (exists self' w',
     heartbeat_tick (Sample.unconnected r) (Normal true) Sample.w0 = (Normal self', w') /\
     provider self' = "ws://node-2:8546" /\
     effects w' = [SocketOpened "ws://node-2:8546"]) /\
  effects (snd (_heartbeat (Sample.unconnected r) Sample.w0)) = [IntervalStarted 5000].
Proof.
  cbv zeta.
  destruct (heartbeat_failover
              (Sample.connected [] (Sample.raw Sample.alice_address Sample.bob_address 0 0))
              Sample.w0) as (H1 & _ & _).
  destruct (heartbeat_failover
              (Sample.unconnected (Sample.raw Sample.alice_address Sample.bob_address 0 0))
              Sample.w0) as (_ & H2 & H3).
  split; [|split].
  - eexists. eexists. split; [apply (H1 _ (Error "connection not open") eq_refl eq_refl)|].
    split; reflexivity.
  - destruct (H2 (Normal true) eq_refl) as (H2a & _ & _).
    eexists. eexists. split; [exact H2a|]. split; reflexivity.
  - rewrite (H3 eq_refl eq_refl). reflexivity.
Defined.

(** * Further properties *)

(** ** Accounts: hexToAccount and accountToHex *)

Lemma append_empty : forall s : string, s ++ "" = s.
Proof. induction s as [|c s IH]; simpl; [reflexivity | rewrite IH; reflexivity]. Qed.

Lemma prefix_append : forall p s, String.prefix p (p ++ s) = true.
Proof.
  induction p as [|a p IH]; intros s; simpl.
  - destruct s; reflexivity.
  - destruct (ascii_dec a a) as [_|n]; [apply IH | contradiction].
Qed.

Lemma slice_append : forall p s, Js.slice_from (String.length p) (p ++ s) = s.
Proof. induction p as [|a p IH]; intros s; simpl; [reflexivity | apply IH]. Qed.

Lemma prefix_split : forall p s,
  String.prefix p s = true -> s = p ++ Js.slice_from (String.length p) s.
Proof.
  induction p as [|a p IH]; intros s H; simpl.
  - reflexivity.
  - destruct s as [|b s]; simpl in H; [discriminate H|].
    destruct (ascii_dec a b) as [->|_]; [|discriminate H].
    f_equal. apply IH, H.
Qed.

Lemma hex_digits_complete : forall d rest,
  forallb Spec.isHex (list_ascii_of_string d) = true ->
  hex_digits (String.length d) (d ++ rest) = Some (d, rest).
Proof.
  induction d as [|c d IH]; intros rest H; simpl in *.
  - reflexivity.
  - apply andb_prop in H. destruct H as [Hc Hd].
    unfold Spec.isHex in Hc. destruct (Js.hexDigitValue c); [|discriminate Hc].
    rewrite (IH rest Hd). reflexivity.
Qed.

Lemma hex_digits_sound : forall n s d rest,
  hex_digits n s = Some (d, rest) ->
  s = d ++ rest /\ String.length d = n /\
  forallb Spec.isHex (list_ascii_of_string d) = true.
Proof.
  induction n as [|n IH]; intros s d rest H; simpl in H.
  - injection H as <- <-. repeat split.
  - destruct s as [|c s]; [discriminate H|].
    destruct (Js.hexDigitValue c) eqn:Hc; [|discriminate H].
    destruct (hex_digits n s) as [[d' rest']|] eqn:Hn; [|discriminate H].
    injection H as <- <-.
    destruct (IH _ _ _ Hn) as (-> & <- & Hall).
    simpl. unfold Spec.isHex at 1. rewrite Hc, Hall. repeat split.
Qed.

Lemma is_address_inv : forall a,
  is_address a = true ->
  exists digits, a = "0x" ++ digits /\ String.length digits = 40%nat /\
                 forallb Spec.isHex (list_ascii_of_string digits) = true.
Proof.
  intros [|c0 [|c1 r]] H; simpl in H; try discriminate H.
  repeat (apply andb_prop in H; destruct H as [H ?]).
  apply Ascii.eqb_eq in H. subst c0.
  match goal with E : Ascii.eqb c1 _ = true |- _ => apply Ascii.eqb_eq in E; subst c1 end.
  match goal with E : Nat.eqb _ _ = true |- _ => apply Nat.eqb_eq in E end.
  exists r. repeat split; assumption.
Qed.

Lemma match_account_address : forall a,
  is_address a = true -> match_account a = Some a.
Proof.
  intros a H. destruct (is_address_inv a H) as (d & -> & Hlen & Hhex).
  pose proof (hex_digits_complete d "" Hhex) as Hd.
  rewrite Hlen, append_empty in Hd.
  cbn [append match_account Ascii.eqb Bool.eqb andb]. rewrite Hd. reflexivity.
Qed.

Lemma match_account_dotted : forall a rest,
  is_address a = true -> match_account (a ++ "." ++ rest) = Some (a ++ ".").
Proof.
  intros a rest H. destruct (is_address_inv a H) as (d & -> & Hlen & Hhex).
  pose proof (hex_digits_complete d ("." ++ rest) Hhex) as Hd.
  rewrite Hlen in Hd.
  cbn [append match_account Ascii.eqb Bool.eqb andb] in *. rewrite Hd.
  reflexivity.
Qed.

(** X1.  An account built by [hexToAccount] from a prefix and an
    address is taken apart again by [accountToHex]; in particular the
    plugin's own account, read with the prefix that [getInfo] reports,
    gives back the plugin's address. *)
Theorem accountToHex_hexToAccount : forall p a,
  is_address a = true ->
  accountToHex (hexToAccount p a) p = Normal a /\
  (forall self, _prefix self = p -> address self = a ->
                accountToHex (getAccount self) (info_prefix (getInfo self)) = Normal a).
Proof.
  intros p a H.
  assert (Hmain : accountToHex (hexToAccount p a) p = Normal a).
  { unfold accountToHex, hexToAccount, startsWith.
    rewrite prefix_append, slice_append. cbn [negb].
    rewrite (match_account_address a H). reflexivity. }
  split; [exact Hmain|].
  intros self Hp Ha. unfold getAccount, getInfo. cbn [info_prefix].
  rewrite Hp, Ha. exact Hmain.
Qed.

Lemma accountToHex_hexToAccount_witness :
  accountToHex (hexToAccount "test.rddn." Sample.alice_address) "test.rddn."
  = Normal Sample.alice_address /\
  accountToHex (getAccount (constructor Sample.opts))
               (info_prefix (getInfo (constructor Sample.opts)))
  = Normal Sample.alice_address.
Proof.
  destruct (accountToHex_hexToAccount "test.rddn." Sample.alice_address eq_refl) as [H1 H2].
  split; [exact H1 | apply H2; reflexivity].
Defined.

(** X2.  When the address is followed by a dot and further segments,
    [accountToHex] returns the address with that dot attached: the
    pattern is global, so [match[0]] is the whole match. *)
Theorem accountToHex_keeps_dot : forall p a rest,
  is_address a = true ->
  accountToHex (p ++ a ++ "." ++ rest) p = Normal (a ++ ".").
Proof.
  intros p a rest H. unfold accountToHex, startsWith.
  rewrite prefix_append, slice_append. cbn [negb].
  rewrite (match_account_dotted a rest H). reflexivity.
Qed.

Lemma accountToHex_keeps_dot_witness :
  accountToHex ("test.rddn." ++ Sample.bob_address ++ "." ++ "savings") "test.rddn."
  = Normal "0xb0b0000000000000000000000000000000000002.".
Proof.
  apply (accountToHex_keeps_dot "test.rddn." Sample.bob_address "savings"). reflexivity.
Defined.

(** X3.  Whatever [accountToHex] returns stands in the account right
    behind the ledger prefix: it is an address that ends the account, or
    an address and the dot that follows it.  Every other account is
    refused. *)
Theorem accountToHex_sound : forall account p m,
  accountToHex account p = Normal m ->
  exists a rest,
    is_address a = true /\ account = p ++ a ++ rest /\
    ((m = a /\ rest = "") \/ (m = a ++ "." /\ exists tail, rest = "." ++ tail)).
Proof.
  intros account p m H. unfold accountToHex, startsWith in H.
  destruct (String.prefix p account) eqn:Hp; cbn [negb] in H; [|discriminate H].
  apply prefix_split in Hp.
  destruct (match_account (Js.slice_from (String.length p) account)) as [m'|] eqn:Hm;
    [|discriminate H].
  injection H as ->.
  set (s := Js.slice_from (String.length p) account) in *.
  unfold match_account in Hm.
  destruct s as [|c0 [|c1 r]]; try discriminate Hm.
  destruct (Ascii.eqb c0 "0" && Ascii.eqb c1 "x") eqn:H0x; [|discriminate Hm].
  apply andb_prop in H0x. destruct H0x as [E0 E1].
  apply Ascii.eqb_eq in E0. apply Ascii.eqb_eq in E1. subst c0 c1.
  destruct (hex_digits 40 r) as [[d rest]|] eqn:Hd; [|discriminate Hm].
  destruct (hex_digits_sound _ _ _ _ Hd) as (Hr & Hlen & Hhex).
  assert (Haddr : is_address ("0x" ++ d) = true).
  { cbn [append is_address Ascii.eqb Bool.eqb andb]. rewrite Hlen, Hhex. reflexivity. }
  exists ("0x" ++ d), rest. split; [exact Haddr|]. split.
  - rewrite Hp. f_equal. cbn [append]. rewrite Hr. reflexivity.
  - destruct rest as [|c tail].
    + left. injection Hm as <-. split; reflexivity.
    + destruct (Ascii.eqb c ".") eqn:Ec; [|discriminate Hm].
      apply Ascii.eqb_eq in Ec. subst c. injection Hm as <-.
      right. split; [|exists tail; reflexivity].
      reflexivity.
Qed.

Lemma accountToHex_sound_witness :
  exists a rest,
    is_address a = true /\
    "test.rddn." ++ Sample.carol_address ++ ".x" = "test.rddn." ++ a ++ rest /\
    (("0xca40100000000000000000000000000000000003." = a /\ rest = "") \/
     ("0xca40100000000000000000000000000000000003." = a ++ "." /\
      exists tail, rest = "." ++ tail)).
Proof.
  apply (accountToHex_sound ("test.rddn." ++ Sample.carol_address ++ ".x") "test.rddn."
                            "0xca40100000000000000000000000000000000003.").
  reflexivity.
Defined.

(** ** Identifiers *)

(** X4.  Two well-formed UUIDs with the same ledger id are the same
    UUID: on well-formed input [uuidToHex] loses nothing. *)
Theorem uuidToHex_injective : forall u1 u2,
  Spec.is_uuid u1 = true ->
  Spec.is_uuid u2 = true ->
  Transaction.uuidToHex u1 = Transaction.uuidToHex u2 ->
  u1 = u2.
Proof.
  intros u1 u2 H1 H2 H.
  peel_shape H1. peel_shape H2.
  unfold Transaction.uuidToHex in H.
  repeat (rewrite replace_dashes_dash in H || rewrite replace_dashes_hex in H by assumption).
  cbn [append Transaction.replace_dashes] in H.
  injection H. intros. subst. reflexivity.
Qed.

Lemma uuidToHex_injective_witness :
  Transaction.uuidToHex "f55585e1-0c19-4588-832d-369cfa005640"
  <> Transaction.uuidToHex "F55585E1-0C19-4588-832D-369CFA005640".
Proof.
  intros H.
  apply (uuidToHex_injective "f55585e1-0c19-4588-832d-369cfa005640"
                             "F55585E1-0C19-4588-832D-369CFA005640" eq_refl eq_refl) in H.
  discriminate H.
Defined.

Lemma hexToUuid_uuidToHex_lowercase : forall u,
  Spec.is_lowercase_uuid u = true -> hexToUuid (Transaction.uuidToHex u) = u.
Proof.
  intros u H.
  rewrite (uuid_round_trip_lowercases u (lowercase_uuid_is_uuid u H)).
  apply (toLowerCase_lowercase Spec.uuid_shape), H.
Qed.

(** X5.  [getRequests] gives back as many entries as the contract
    returned, each in UUID form; when the contract returns the ledger ids
    of lower-case UUIDs, the result is the list of those UUIDs, in the
    same order. *)
Theorem getRequests_uuids : forall self c methods a s d us,
  contract self = Some c ->
  getRequests_call methods a s d = Normal (map Transaction.uuidToHex us) ->
  Forall (fun u => Spec.is_lowercase_uuid u = true) us ->
  getRequests self methods a s d = Normal us.
Proof.
  intros self c methods a s d us Hc Hcall Hall.
  unfold getRequests. rewrite Hc, Hcall. cbn [cbind].
  assert (Hmap : map hexToUuid (map Transaction.uuidToHex us) = us).
  { clear Hcall. induction Hall as [|u us Hu _ IH]; [reflexivity|].
    cbn [map]. rewrite (hexToUuid_uuidToHex_lowercase u Hu), IH. reflexivity. }
  destruct (Nat.eqb (List.length (map Transaction.uuidToHex us)) 0) eqn:E.
  - apply Nat.eqb_eq in E. rewrite length_map in E.
    destruct us; [reflexivity | discriminate E].
  - rewrite Hmap. reflexivity.
Qed.

Lemma getRequests_uuids_witness :
  getRequests (Sample.connected [] (Sample.raw Sample.alice_address Sample.bob_address 0 0))
              Sample2.queries Sample.alice_address 0 0
  = Normal Sample2.uuids.
Proof.
  apply (getRequests_uuids _ (Sample.store (Sample.raw Sample.alice_address Sample.bob_address 0 0)));
    try reflexivity.
  repeat constructor.
Defined.

(** ** Projection *)

(** X6.  The transfer that [getTransfer(u)] resolves to, found or not,
    carries as [id] the UUID [u] it was asked for, in lower case. *)
Theorem getTransfer_id : forall self u t,
  Spec.is_uuid u = true ->
  getTransfer self u = Normal t ->
  id t = Js.toLowerCase u.
Proof.
  intros self u t Hu H.
  unfold getTransfer, _getRddnTransfer in H.
  destruct (contract self) as [c|]; [|discriminate H].
  destruct (getTransfer_call c (Transaction.uuidToHex u)) as [r|e]; [|discriminate H].
  cbn [cbind] in H.
  destruct (String.eqb (raw_from r) zero_address).
  - injection H as <-. cbn [id]. apply uuid_round_trip_lowercases, Hu.
  - destruct (getMoneyIdByTransferId_call c (Transaction.uuidToHex u)); [|discriminate H].
    destruct (getIlpPacket_call c (Transaction.uuidToHex u)); [|discriminate H].
    cbn [cbind] in H.
    destruct (Date_toISOString (raw_expiry r * 1000)); [|discriminate H].
    cbn [cbind] in H. injection H as <-. cbn [id].
    apply uuid_round_trip_lowercases, Hu.
Qed.

Lemma getTransfer_id_witness :
  exists t,
    getTransfer (Sample.connected [] (Sample.raw Sample.alice_address Sample.bob_address 1 1))
                "F55585E1-0C19-4588-832D-369CFA005640" = Normal t /\
    id t = "f55585e1-0c19-4588-832d-369cfa005640".
Proof.
  eexists. split; [vm_compute; reflexivity|].
  apply (getTransfer_id
           (Sample.connected [] (Sample.raw Sample.alice_address Sample.bob_address 1 1))
           "F55585E1-0C19-4588-832D-369CFA005640");
    vm_compute; reflexivity.
Defined.

(** X7.  A record whose expiry, in milliseconds, lies beyond the range
    of JavaScript dates cannot be projected: [_getRddnTransfer] throws
    the RangeError of [toISOString], and the notification handler that
    asked for the transfer emits nothing. *)
Theorem getRddnTransfer_expiry_out_of_range : forall self c _id r m p w,
  contract self = Some c ->
  getTransfer_call c _id = Normal r ->
  raw_from r <> zero_address ->
  getMoneyIdByTransferId_call c _id = Normal m ->
  getIlpPacket_call c _id = Normal p ->
  8640000000000000 < Z.abs (raw_expiry r * 1000) ->
  _getRddnTransfer self _id = Throw (RangeError "Invalid time value") /\
  onUpdate self _id w = (Throw (RangeError "Invalid time value"), w).
Proof.
  intros self c _id r m p w Hc Hr Hz Hm Hp Hexp.
  assert (H : _getRddnTransfer self _id = Throw (RangeError "Invalid time value")).
  { unfold _getRddnTransfer. rewrite Hc, Hr. cbn [cbind].
    destruct (String.eqb_spec (raw_from r) zero_address) as [E|_]; [contradiction|].
    rewrite Hm, Hp. cbn [cbind]. unfold Date_toISOString.
    apply Z.ltb_lt in Hexp. rewrite Hexp. reflexivity. }
  split; [exact H|].
  unfold onUpdate, bind, lift. rewrite H. reflexivity.
Qed.

Lemma getRddnTransfer_expiry_out_of_range_witness :
  _getRddnTransfer (Sample.connected [] Sample2.far_future) Sample.ledgerId
  = Throw (RangeError "Invalid time value") /\
  onUpdate (Sample.connected [] Sample2.far_future) Sample.ledgerId Sample.w0
  = (Throw (RangeError "Invalid time value"), Sample.w0).
Proof.
  apply (getRddnTransfer_expiry_out_of_range
           (Sample.connected [] Sample2.far_future) (Sample.store Sample2.far_future)
           Sample.ledgerId Sample2.far_future "JPY-1" "0x68656c6c6f" Sample.w0);
    try reflexivity.
  vm_compute. discriminate.
Defined.

(** X8.  The [from] and [to] of a projected transfer are the two
    addresses of the record behind the plugin's prefix, so that
    [accountToHex] with that prefix recovers both addresses. *)
Theorem getRddnTransfer_accounts : forall self c _id r t,
  contract self = Some c ->
  getTransfer_call c _id = Normal r ->
  raw_from r <> zero_address ->
  _getRddnTransfer self _id = Normal t ->
  from t = _prefix self ++ raw_from r /\
  to t = _prefix self ++ raw_to r /\
  (is_address (raw_from r) = true ->
   accountToHex (from t) (_prefix self) = Normal (raw_from r)) /\
  (is_address (raw_to r) = true ->
   accountToHex (to t) (_prefix self) = Normal (raw_to r)).
Proof.
  intros self c _id r t Hc Hr Hz H.
  unfold _getRddnTransfer in H. rewrite Hc, Hr in H. cbn [cbind] in H.
  destruct (String.eqb_spec (raw_from r) zero_address) as [E|_]; [contradiction|].
  destruct (getMoneyIdByTransferId_call c _id); [|discriminate H].
  destruct (getIlpPacket_call c _id); [|discriminate H].
  cbn [cbind] in H.
  destruct (Date_toISOString (raw_expiry r * 1000)); [|discriminate H].
  cbn [cbind] in H. injection H as <-. cbn [from to]. unfold hexToAccount.
  split; [reflexivity|]. split; [reflexivity|].
  split; intros Ha; unfold accountToHex, startsWith;
    rewrite prefix_append, slice_append; cbn [negb];
    rewrite (match_account_address _ Ha); reflexivity.
Qed.

Lemma getRddnTransfer_accounts_witness :
  exists t,
    _getRddnTransfer (Sample.connected [] (Sample.raw Sample.bob_address Sample.carol_address 0 0))
                     Sample.ledgerId = Normal t /\
    accountToHex (from t) "test.rddn." = Normal Sample.bob_address /\
    accountToHex (to t) "test.rddn." = Normal Sample.carol_address.
Proof.
  eexists. split; [vm_compute; reflexivity|].
  match goal with
  | |- accountToHex (from ?t) _ = _ /\ _ =>
      assert (Hz : raw_from (Sample.raw Sample.bob_address Sample.carol_address 0 0)
                   <> zero_address) by (vm_compute; discriminate);
      assert (Ht : _getRddnTransfer
                     (Sample.connected [] (Sample.raw Sample.bob_address Sample.carol_address 0 0))
                     Sample.ledgerId = Normal t) by (vm_compute; reflexivity);
      destruct (getRddnTransfer_accounts
                  (Sample.connected [] (Sample.raw Sample.bob_address Sample.carol_address 0 0))
                  (Sample.store (Sample.raw Sample.bob_address Sample.carol_address 0 0))
                  Sample.ledgerId
                  (Sample.raw Sample.bob_address Sample.carol_address 0 0)
                  t eq_refl eq_refl Hz Ht) as (_ & _ & Hfrom & Hto)
  end.
  split; [apply Hfrom | apply Hto]; reflexivity.
Defined.

(** ** Dispatch at the edges *)

(** X9.  A notification for an id the contract has no record of still
    emits an event: the "not found" transfer goes out under the name
    [event_], the state being the empty string, and a Fulfill
    notification loses its fulfillment on the way.  (The plugin's own
    account is assumed not to be the empty string.) *)
Theorem notification_for_unknown_id : forall self c _id r fulfillment w,
  contract self = Some c ->
  getTransfer_call c _id = Normal r ->
  raw_from r = zero_address ->
  getAccount self <> "" ->
  let unknown := Emitted "event_" [ATransfer (Spec.set_id (hexToUuid _id) Spec.not_found)] in
  onUpdate self _id w = (Normal tt, mkWorld (now w) (log w ++ [(now w, unknown)])) /\
  onFulfill self _id fulfillment w = (Normal tt, mkWorld (now w) (log w ++ [(now w, unknown)])).
Proof.
  intros self c _id r fulfillment w Hc Hr Hz Hacc. cbv zeta.
  assert (Ht : _getRddnTransfer self _id
               = Normal (Spec.set_id (hexToUuid _id) Spec.not_found)).
  { unfold _getRddnTransfer. rewrite Hc, Hr. cbn [cbind].
    rewrite Hz, String.eqb_refl. reflexivity. }
  assert (Hne : String.eqb "" (getAccount self) = false).
  { destruct (String.eqb_spec "" (getAccount self)) as [E|_]; [|reflexivity].
    symmetry in E. contradiction. }
  split.
  - rewrite (onUpdate_dispatches _ _ _ _ Ht).
    unfold _processUpdate. cbn [from to Spec.set_id Spec.not_found]. rewrite Hne. reflexivity.
  - rewrite (onFulfill_dispatches _ _ _ _ _ Ht).
    unfold _processUpdate. cbn [from to Spec.set_id Spec.not_found]. rewrite Hne. reflexivity.
Qed.

Lemma notification_for_unknown_id_witness :
  effects (snd (onFulfill (Sample.connected [] (Sample.raw zero_address zero_address 0 0))
                          Sample.ledgerId "0xfbff" Sample.w0))
  = [Emitted "event_" [ATransfer (Spec.set_id Sample.uuid Spec.not_found)]].
Proof.
  destruct (notification_for_unknown_id
              (Sample.connected [] (Sample.raw zero_address zero_address 0 0))
              (Sample.store (Sample.raw zero_address zero_address 0 0))
              Sample.ledgerId (Sample.raw zero_address zero_address 0 0) "0xfbff" Sample.w0
              eq_refl eq_refl eq_refl) as [_ H].
  - vm_compute. discriminate.
  - rewrite H. reflexivity.
Defined.

Lemma stateToName_out_of_range : forall code,
  code < 0 \/ 2 < code -> stateToName code = Js.Undefined.
Proof.
  intros code H. rewrite stateToName_table.
  destruct code as [|p|p]; [lia | | reflexivity].
  destruct p as [[p|p|]|[p|p|]|]; try reflexivity; lia.
Qed.

(** X10.  A record with a state code outside 0..2 is dispatched like any
    other, under a name that ends in [undefined]: [incoming_undefined],
    [outgoing_undefined] or [event_undefined]. *)
Theorem notification_with_unknown_state : forall self c _id r m p w,
  contract self = Some c ->
  getTransfer_call c _id = Normal r ->
  raw_from r <> zero_address ->
  getMoneyIdByTransferId_call c _id = Normal m ->
  getIlpPacket_call c _id = Normal p ->
  Z.abs (raw_expiry r * 1000) <= 8640000000000000 ->
  raw_state r < 0 \/ 2 < raw_state r ->
  exists t,
    _getRddnTransfer self _id = Normal t /\
    onUpdate self _id w =
    (Normal tt,
     mkWorld (now w)
       (log w ++ [(now w,
                   if String.eqb (to t) (getAccount self)
                   then Emitted "incoming_undefined"
                                [ATransfer (set_ledger (Js.Str (_prefix self)) t)]
                   else if String.eqb (from t) (getAccount self)
                   then Emitted "outgoing_undefined"
                                [ATransfer (set_ledger (Js.Str (_prefix self)) t)]
                   else Emitted "event_undefined" [ATransfer t])])).
Proof.
  intros self c _id r m p w Hc Hr Hz Hm Hp Hexp Hcode.
  destruct (Date_toISOString_in_range _ Hexp) as [iso Hiso].
  eexists. split.
  - unfold _getRddnTransfer. rewrite Hc, Hr. cbn [cbind].
    destruct (String.eqb_spec (raw_from r) zero_address) as [E|_]; [contradiction|].
    rewrite Hm, Hp. cbn [cbind]. rewrite Hiso. cbn [cbind].
    rewrite (stateToName_out_of_range _ Hcode). reflexivity.
  - unfold onUpdate, bind, lift, _getRddnTransfer. rewrite Hc, Hr. cbn [cbind].
    destruct (String.eqb_spec (raw_from r) zero_address) as [E|_]; [contradiction|].
    rewrite Hm, Hp. cbn [cbind]. rewrite Hiso. cbn [cbind].
    rewrite (stateToName_out_of_range _ Hcode).
    unfold _processUpdate. cbn [from to state set_ledger].
    destruct (String.eqb (hexToAccount (_prefix self) (raw_to r)) (getAccount self));
      destruct (String.eqb (hexToAccount (_prefix self) (raw_from r)) (getAccount self));
      reflexivity.
Qed.

Lemma notification_with_unknown_state_witness :
  exists name args,
    effects (snd (onUpdate (Sample.connected [] (Sample.raw Sample.bob_address Sample.alice_address 9 0))
                           Sample.ledgerId Sample.w0))
    = [Emitted name args] /\ name = "incoming_undefined".
Proof.
  destruct (notification_with_unknown_state
              (Sample.connected [] (Sample.raw Sample.bob_address Sample.alice_address 9 0))
              (Sample.store (Sample.raw Sample.bob_address Sample.alice_address 9 0))
              Sample.ledgerId (Sample.raw Sample.bob_address Sample.alice_address 9 0)
              "JPY-1" "0x68656c6c6f" Sample.w0 eq_refl eq_refl) as (t & Ht & H);
    try reflexivity.
  - vm_compute. discriminate.
  - vm_compute. discriminate.
  - right. reflexivity.
  - rewrite H. vm_compute in Ht. injection Ht as <-.
    eexists. eexists. split; vm_compute; reflexivity.
Defined.

(** ** Forced re-emission, continued *)

(** X11.  [forceEmitFulfill] on a transfer that resolves: when [to] is
    the own account it emits [incoming_fulfill], otherwise when [from]
    is it emits [outgoing_fulfill], and returns [true]; the event
    carries the transfer with [direction] set (and [ledger] untouched)
    and the fulfillment and ilp the caller passed, whatever the state of
    the transfer is.  With neither end matching it returns [false] and
    emits nothing. *)
Theorem forceEmitFulfill_dispatch : forall self transferId t fulfillment ilp w,
  getTransfer self transferId = Normal t ->
  forceEmitFulfill self transferId fulfillment ilp w =
  if String.eqb (to t) (getAccount self) then
    (Normal true,
     mkWorld (now w)
       (log w ++ [(now w, Emitted "incoming_fulfill"
                            [ATransfer (set_direction (Js.Str "incoming") t);
                             AValue fulfillment; AValue ilp])]))
  else if String.eqb (from t) (getAccount self) then
    (Normal true,
     mkWorld (now w)
       (log w ++ [(now w, Emitted "outgoing_fulfill"
                            [ATransfer (set_direction (Js.Str "outgoing") t);
                             AValue fulfillment; AValue ilp])]))
  else (Normal false, w).
Proof.
  intros self transferId t fulfillment ilp w Ht.
  unfold forceEmitFulfill, try_catch, bind, lift. rewrite Ht.
  destruct (String.eqb (to t) (getAccount self));
    destruct (String.eqb (from t) (getAccount self)); reflexivity.
Qed.

Lemma forceEmitFulfill_dispatch_witness :
  fst (forceEmitFulfill (Sample.connected [] (Sample.raw Sample.bob_address Sample.carol_address 0 0))
                        Sample.uuid (Js.Str "-_8") (Js.Str "aGVsbG8") Sample.w0) = Normal false /\
  fst (forceEmitFulfill (Sample.connected [] (Sample.raw Sample.bob_address Sample.alice_address 0 0))
                        Sample.uuid (Js.Str "-_8") (Js.Str "aGVsbG8") Sample.w0) = Normal true.
Proof.
  split.
  - assert (Ht : exists t,
        getTransfer (Sample.connected [] (Sample.raw Sample.bob_address Sample.carol_address 0 0))
                    Sample.uuid = Normal t) by (eexists; vm_compute; reflexivity).
    destruct Ht as [t Ht].
    rewrite (forceEmitFulfill_dispatch _ _ _ _ _ _ Ht).
    vm_compute in Ht. injection Ht as <-. reflexivity.
  - assert (Ht : exists t,
        getTransfer (Sample.connected [] (Sample.raw Sample.bob_address Sample.alice_address 0 0))
                    Sample.uuid = Normal t) by (eexists; vm_compute; reflexivity).
    destruct Ht as [t Ht].
    rewrite (forceEmitFulfill_dispatch _ _ _ _ _ _ Ht).
    vm_compute in Ht. injection Ht as <-. reflexivity.
Defined.

(** X12.  [forceEmitPrepare] never returns [false].  When it returns at
    all, the own account is both ends of the transfer, the result is
    [true] and the one event emitted is [incoming_prepare]. *)
Theorem forceEmitPrepare_returns_only_true : forall self transferId w b w',
  forceEmitPrepare self transferId w = (Normal b, w') ->
  b = true /\
  exists t,
    getTransfer self transferId = Normal t /\
    from t = getAccount self /\ to t = getAccount self /\
    w' = mkWorld (now w)
           (log w ++ [(now w, Emitted "incoming_prepare"
                                [ATransfer (set_direction (Js.Str "incoming") t)])]).
Proof.
  intros self transferId w b w' H.
  unfold forceEmitPrepare, try_catch, bind, lift in H.
  destruct (getTransfer self transferId) as [t|e]; [|discriminate H].
  destruct (String.eqb_spec (from t) (getAccount self)) as [Hf|_];
    cbn [or_else underscore cbind] in H; [|discriminate H].
  destruct (String.eqb_spec (to t) (getAccount self)) as [Hto|_];
    cbn [or_else underscore cbind] in H; [|discriminate H].
  injection H as <- <-.
  split; [reflexivity|]. exists t. repeat split; assumption.
Qed.

Lemma forceEmitPrepare_returns_only_true_witness :
  fst (forceEmitPrepare
         (Sample.connected [] (Sample.raw Sample.alice_address Sample.alice_address 0 0))
         Sample.uuid Sample.w0) = Normal true.
Proof.
  destruct (forceEmitPrepare
              (Sample.connected [] (Sample.raw Sample.alice_address Sample.alice_address 0 0))
              Sample.uuid Sample.w0) as [[b|e] w'] eqn:E.
  - destruct (forceEmitPrepare_returns_only_true _ _ _ _ _ E) as [-> _]. reflexivity.
  - vm_compute in E. discriminate E.
Defined.

(** ** Submitters: what one call does to the node *)

Lemma one_attempt_nothing : forall self payload w, one_attempt self payload w w.
Proof. intros. split; [reflexivity | left; reflexivity]. Qed.

(** The tail the three submitters of transaction.js share, from the
    query for the sequence number on. *)
Lemma submit_tail_attempt : forall self (payload : calldata -> Prop) c params handle w,
  contract self = Some c ->
  payload params ->
  one_attempt self payload w
    (snd (bind (Transaction.pendingNonce handle (address self))
            (fun nonce =>
               bind (Transaction.sign
                       (mkRawTx (address self) (contract_address c) Transaction.gasPrice
                                Transaction.gasLimit params nonce)
                       (privateKey self))
                    (fun serializedTx =>
                       try_catch (Transaction.send handle serializedTx) (fun e => throw e)))
            w)).
Proof.
  intros self payload c params handle w Hc Hp.
  unfold bind, Transaction.pendingNonce.
  destruct handle as [h|]; [|apply one_attempt_nothing].
  destruct (getTransactionCount h (nonce_queries w) (address self)) as [z|e].
  - unfold Transaction.sign.
    destruct (Js.indexOf (privateKey self) "0x" <? 0).
    + split; [reflexivity | right; left; reflexivity].
    + unfold ret, try_catch, Transaction.send. cbn [now log].
      split.
      * destruct (sendSignedTransaction h _ _) as [[]|e]; reflexivity.
      * right; right. exists c, params, z. split; [exact Hc|]. split; [exact Hp|].
        destruct (sendSignedTransaction h _ _) as [[]|e]; cbn [snd log now];
          rewrite <- app_assoc; reflexivity.
  - split; [reflexivity | right; left; reflexivity].
Qed.

Lemma tx_fulfillCondition_attempt : forall self transferId fulfillment w,
  one_attempt self
    (fun params => params = fulfillTransfer (Transaction.uuidToHex transferId)
                                            (fulfillmentToHex fulfillment))
    w
    (snd (Transaction.fulfillCondition (contract self) transferId fulfillment (address self)
            (privateKey self) (node_handle self) (private self) w)).
Proof.
  intros self transferId fulfillment w.
  unfold Transaction.fulfillCondition, Transaction.encodeABI.
  destruct (contract self) as [c|] eqn:Hc; [|apply one_attempt_nothing].
  unfold bind at 1. unfold ret at 1.
  apply (submit_tail_attempt self _ c); [exact Hc | reflexivity].
Qed.

Lemma tx_rejectIncomingTransfer_attempt : forall self transferId w,
  one_attempt self
    (fun params => params = abortTransfer (Transaction.uuidToHex transferId))
    w
    (snd (Transaction.rejectIncomingTransfer (contract self) transferId (address self)
            (privateKey self) (node_handle self) (private self) w)).
Proof.
  intros self transferId w.
  unfold Transaction.rejectIncomingTransfer, Transaction.encodeABI.
  destruct (contract self) as [c|] eqn:Hc; [|apply one_attempt_nothing].
  unfold bind at 1. unfold ret at 1.
  apply (submit_tail_attempt self _ c); [exact Hc | reflexivity].
Qed.

Lemma tx_sendTransfer_attempt : forall self t w,
  one_attempt self
    (fun params => params = createTransfer (Transaction.custom_moneyId t) (amount t)
                              (conditionToHex (executionCondition t))
                              (Transaction.uuidToHex (id t)) (isoToHex (expiresAt t))
                              (ilpToData (ilp t)) (Transaction.custom_dir t))
    w
    (snd (Transaction.sendTransfer (contract self) t (address self) (privateKey self)
            (_prefix self) (node_handle self) (private self) w)).
Proof.
  intros self t w.
  unfold Transaction.sendTransfer, Transaction.encodeABI.
  destruct (contract self) as [c|] eqn:Hc; [|apply one_attempt_nothing].
  unfold Transaction.isoToHex_with.
  destruct (node_handle self) as [h|]; [|apply one_attempt_nothing].
  unfold bind at 1. unfold ret at 1. unfold bind at 1. unfold ret at 1.
  apply (submit_tail_attempt self _ c (createTransfer _ _ _ _ _ _ _) (Some h));
    [exact Hc | reflexivity].
Qed.

(** The handlers that classify a rejection only throw. *)
Lemma try_catch_throwing_world : forall (m : M unit) (handler : js_error -> M unit) w,
  (forall e w1, snd (handler e w1) = w1) ->
  snd (try_catch m handler w) = snd (m w).
Proof.
  intros m handler w H. unfold try_catch.
  destruct (m w) as [[r|e] w1]; [reflexivity | apply H].
Qed.

(** X13.  [sendTransfer] never retries and never waits: one call asks
    the node for the sequence number at most once and submits at most
    one transaction, built with gas price 0, gas limit 4700000, the
    plugin's address as sender, the contract as recipient and the
    [createTransfer] call as payload; a call that is refused for lack of
    a handle touches nothing. *)
Theorem sendTransfer_single_attempt : forall self t w,
  one_attempt self
    (fun params => params = createTransfer (Transaction.custom_moneyId t) (amount t)
                              (conditionToHex (executionCondition t))
                              (Transaction.uuidToHex (id t)) (isoToHex (expiresAt t))
                              (ilpToData (ilp t)) (Transaction.custom_dir t))
    w (snd (sendTransfer self t w)).
Proof.
  intros self t w. unfold sendTransfer.
  destruct (isConnected self); cbn [negb]; [|apply one_attempt_nothing].
  rewrite try_catch_throwing_world.
  - apply tx_sendTransfer_attempt.
  - intros e w1.
    destruct (0 <=? Js.indexOf (message_of e) "replacement transaction underpriced");
      reflexivity.
Qed.

(** X14.  One call of [_fulfillCondition] or [_rejectIncomingTransfer]
    likewise asks for the sequence number at most once and submits at
    most one transaction, with the same fixed gas values and the
    [fulfillTransfer], respectively [abortTransfer], call for the
    ledger id of the transfer as payload; classifying the node's answer
    adds nothing. *)
Theorem fulfill_reject_single_attempt : forall self transferId fulfillment w,
  one_attempt self
    (fun params => params = fulfillTransfer (Transaction.uuidToHex transferId)
                                            (fulfillmentToHex fulfillment))
    w (snd (_fulfillCondition self transferId fulfillment w)) /\
  one_attempt self
    (fun params => params = abortTransfer (Transaction.uuidToHex transferId))
    w (snd (_rejectIncomingTransfer self transferId w)).
Proof.
  intros self transferId fulfillment w. split.
  - unfold _fulfillCondition. rewrite try_catch_throwing_world.
    + apply tx_fulfillCondition_attempt.
    + intros e w1.
      destruct (0 <=? Js.indexOf (message_of e) "replacement transaction underpriced");
        [reflexivity|].
      destruct (0 <=? Js.indexOf (message_of e) "known transaction"); reflexivity.
  - unfold _rejectIncomingTransfer. rewrite try_catch_throwing_world.
    + apply tx_rejectIncomingTransfer_attempt.
    + intros e w1.
      destruct (0 <=? Js.indexOf (message_of e) "replacement transaction underpriced");
        [reflexivity|].
      destruct (0 <=? Js.indexOf (message_of e) "known transaction"); reflexivity.
Qed.

(** ** Retry, for rejectIncomingTransfer *)








(** ** Connection manager, continued *)

Lemma flip_provider_fields : forall self,
  _primaryProvider (flip_provider self) = _primaryProvider self /\
  _secondaryProvider (flip_provider self) = _secondaryProvider self /\
  web3 (flip_provider self) = web3 self /\
  extWeb3 (flip_provider self) = extWeb3 self /\
  isProcessing (flip_provider self) = isProcessing self /\
  contract (flip_provider self) = contract self /\
  endpoint_configured (flip_provider self).
Proof.
  intros self. unfold flip_provider, endpoint_configured.
  destruct (String.eqb (provider self) (_primaryProvider self)); cbn;
    repeat split; auto.
Qed.

Lemma tick_disconnected : forall self listening w,
  web3 self = None ->
  heartbeat_tick self listening w =
  (Normal (flip_provider self),
   mkWorld (now w) (log w ++ [(now w, SocketOpened (provider (flip_provider self)))])).
Proof.
  intros self listening w Hw.
  destruct (flip_provider_fields self) as (_ & _ & Hf & _).
  unfold heartbeat_tick, probe_reconnect, bind. rewrite Hw.
  unfold createWebsocketProvider, perform, ret. rewrite Hf, Hw. reflexivity.
Qed.

Lemma tick_alive : forall self h b w,
  web3 self = Some h ->
  heartbeat_tick self (Normal b) w =
  (Normal self, mkWorld (now w) (log w ++ [(now w, LivenessQueried (endpoint h))])).
Proof.
  intros self h b w Hw.
  unfold heartbeat_tick, probe_reconnect, bind. rewrite Hw. cbn [ret]. rewrite Hw.
  reflexivity.
Qed.

Lemma tick_failed : forall self h e w,
  web3 self = Some h ->
  heartbeat_tick self (Throw e) w =
  (Normal (flip_provider (set_web3 None self)),
   mkWorld (now w)
     (log w ++ [(now w, LivenessQueried (endpoint h));
                (now w, SocketClosed (endpoint h));
                (now w, SocketOpened (provider (flip_provider (set_web3 None self))))])).
Proof.
  intros self h e w Hw.
  unfold heartbeat_tick, probe_reconnect, bind. rewrite Hw. cbn [ret]. rewrite Hw.
  unfold on_liveness_failure. rewrite Hw.
  cbv [bind perform createWebsocketProvider ret now log].
  rewrite <- !app_assoc. reflexivity.
Qed.

Lemma heartbeat_cases : forall self w,
  _heartbeat self w =
  match extWeb3 self with
  | Some _ => (Normal self, w)
  | None =>
      if isProcessing self then (Normal self, w)
      else (Normal (set_isProcessing true self),
            mkWorld (now w) (log w ++ [(now w, IntervalStarted 5000)]))
  end.
Proof.
  intros self w. unfold _heartbeat.
  destruct (extWeb3 self); [reflexivity|].
  destruct (isProcessing self); reflexivity.
Qed.

(** What [connect()] does, case by case. *)
Lemma connect_cases : forall env self w,
  connect env self w =
  match extWeb3 self, web3 self with
  | Some _, _ =>
      (Normal (set_contract (deployed env (contractAddress self)) self),
       mkWorld (now w)
         (log w ++ [(now w, Subscribed "Deposit"); (now w, Subscribed "Withdraw");
                    (now w, Subscribed "Fulfill"); (now w, Subscribed "Update");
                    (now w, Emitted "connect" [])]))
  | None, Some _ => (Normal self, w)
  | None, None =>
      let bound := set_contract (deployed env (contractAddress self))
                     (set_web3 (Some (new_Web3 env (provider self))) self) in
      if isProcessing self then
        (Normal bound,
         mkWorld (now w)
           (log w ++ [(now w, SocketOpened (provider self));
                      (now w, Subscribed "Deposit"); (now w, Subscribed "Withdraw");
                      (now w, Subscribed "Fulfill"); (now w, Subscribed "Update");
                      (now w, Emitted "connect" [])]))
      else
        (Normal (set_isProcessing true bound),
         mkWorld (now w)
           (log w ++ [(now w, SocketOpened (provider self));
                      (now w, Subscribed "Deposit"); (now w, Subscribed "Withdraw");
                      (now w, Subscribed "Fulfill"); (now w, Subscribed "Update");
                      (now w, IntervalStarted 5000);
                      (now w, Emitted "connect" [])]))
  end.
Proof.
  intros env self w. unfold connect.
  destruct (extWeb3 self) as [x|] eqn:He.
  - cbv [bind perform subscribe_all emit ret now log].
    rewrite heartbeat_cases. cbn [extWeb3 set_contract]. rewrite He.
    cbn [now log]. rewrite <- !app_assoc. reflexivity.
  - destruct (web3 self) as [h|] eqn:Hw; [reflexivity|].
    cbv [bind perform subscribe_all emit ret now log].
    rewrite heartbeat_cases. cbn [extWeb3 isProcessing set_contract set_web3]. rewrite He.
    destruct (isProcessing self); cbn [now log]; rewrite <- !app_assoc; reflexivity.
Qed.

Lemma disconnect_cases : forall self w,
  disconnect self w =
  match web3 self with
  | None => (Normal self, w)
  | Some h =>
      (Normal (set_web3 None self),
       mkWorld (now w)
         (log w ++ [(now w, SocketClosed (endpoint h)); (now w, Emitted "disconnect" [])]))
  end.
Proof.
  intros self w. unfold disconnect.
  destruct (web3 self) as [h|]; [|reflexivity].
  cbv [bind perform emit ret now log]. rewrite <- !app_assoc. reflexivity.
Qed.

Lemma intervals_snoc : forall n l t e,
  intervals (mkWorld n (l ++ [(t, e)])) =
  (intervals (mkWorld n l) + match e with IntervalStarted _ => 1 | _ => 0 end)%nat.
Proof.
  intros n l t e. unfold intervals, effects. cbn [log].
  rewrite map_app, filter_app, length_app. cbn [map snd filter].
  destruct e; cbn [List.length]; reflexivity.
Qed.

Lemma intervals_app : forall n l l',
  intervals (mkWorld n (l ++ l')) =
  (intervals (mkWorld n l) + intervals (mkWorld n l'))%nat.
Proof.
  intros n l l'. unfold intervals, effects. cbn [log].
  rewrite map_app, filter_app, length_app. reflexivity.
Qed.






(** X19.  A plugin constructed without [altProvider] has the primary
    endpoint as its secondary one, and no tick of the probe, whatever
    the liveness query answers, moves it to another endpoint. *)
Theorem single_endpoint_never_changes : forall opts self listening w self' w',
  opts_altProvider opts = None ->
  _primaryProvider self = opts_provider opts ->
  _secondaryProvider self = _secondaryProvider (constructor opts) ->
  provider self = opts_provider opts ->
  heartbeat_tick self listening w = (Normal self', w') ->
  provider self' = opts_provider opts.
Proof.
  intros opts self listening w self' w' Halt Hp Hs Hact H.
  assert (Hsec : _secondaryProvider self = opts_provider opts).
  { rewrite Hs. unfold constructor. cbn [_secondaryProvider]. rewrite Halt. reflexivity. }
  assert (Hflip : forall s, _primaryProvider s = opts_provider opts ->
                            _secondaryProvider s = opts_provider opts ->
                            provider (flip_provider s) = opts_provider opts).
  { intros s H1 H2. unfold flip_provider.
    destruct (String.eqb (provider s) (_primaryProvider s)); cbn [provider set_provider];
      assumption. }
  destruct (web3 self) as [h|] eqn:Hw.
  - destruct listening as [b|e].
    + rewrite (tick_alive self h b w Hw) in H. injection H as <- _. exact Hact.
    + rewrite (tick_failed self h e w Hw) in H. injection H as <- _.
      apply Hflip; assumption.
  - rewrite (tick_disconnected self listening w Hw) in H. injection H as <- _.
    apply Hflip; assumption.
Qed.

Lemma single_endpoint_never_changes_witness :
  exists self' w',
    heartbeat_tick (constructor (mkOpts "ws://only:8546" None Sample.alice_address "0x01"
                                        "0xc0" "test." None))
                   (Throw (Error "connection not open")) Sample.w0 = (Normal self', w') /\
    provider self' = "ws://only:8546".
Proof.
  destruct (heartbeat_tick (constructor (mkOpts "ws://only:8546" None Sample.alice_address "0x01"
                                                "0xc0" "test." None))
                           (Throw (Error "connection not open")) Sample.w0)
    as [[self'|e] w'] eqn:H; [|vm_compute in H; discriminate H].
  exists self', w'. split; [reflexivity|].
  apply (single_endpoint_never_changes
           (mkOpts "ws://only:8546" None Sample.alice_address "0x01" "0xc0" "test." None)
           (constructor (mkOpts "ws://only:8546" None Sample.alice_address "0x01"
                                "0xc0" "test." None))
           (Throw (Error "connection not open")) Sample.w0 self' w'
           eq_refl eq_refl eq_refl eq_refl H).
Defined.

(** X20.  The health probe is set up at most once in the life of a
    plugin: starting from a new instance and an empty log, whatever
    sequence of [connect], [disconnect], ticks and [_heartbeat] calls is
    run, the log holds at most one interval timer, and none as long as
    [isProcessing] is unset. *)
Theorem probe_started_once_invariant :
  (forall opts n, probe_started_once (constructor opts) (mkWorld n [])) /\
  (forall self w,
     probe_started_once self w ->
     (forall env self' w',
        connect env self w = (Normal self', w') -> probe_started_once self' w') /\
     (forall self' w',
        disconnect self w = (Normal self', w') -> probe_started_once self' w') /\
     (forall listening self' w',
        heartbeat_tick self listening w = (Normal self', w') -> probe_started_once self' w') /\
     (forall self' w',
        _heartbeat self w = (Normal self', w') -> probe_started_once self' w')).
Proof.
  split.
  - intros opts n. split; [cbn; lia | reflexivity].
  - intros self [n l] [Hle Hzero].
    assert (Hsame : forall l' self',
              intervals (mkWorld n l') = 0%nat ->
              isProcessing self' = isProcessing self ->
              probe_started_once self' (mkWorld n (l ++ l'))).
    { intros l' self' Hl' Hp. unfold probe_started_once.
      rewrite intervals_app, Hl', Nat.add_0_r, Hp. split; assumption. }
    assert (Hstart : forall l' self',
              isProcessing self = false ->
              intervals (mkWorld n l') = 1%nat ->
              isProcessing self' = true ->
              probe_started_once self' (mkWorld n (l ++ l'))).
    { intros l' self' Hp Hl' Hp'. unfold probe_started_once.
      rewrite intervals_app, Hl', (Hzero Hp), Hp'. split; [lia | discriminate]. }
    assert (Hnone : forall self',
              isProcessing self' = isProcessing self ->
              probe_started_once self' (mkWorld n l)).
    { intros self' Hp. unfold probe_started_once. rewrite Hp. split; assumption. }
    split; [|split; [|split]].
    + intros env self' w' H. rewrite connect_cases in H. cbn [now log] in H.
      destruct (extWeb3 self); [|destruct (web3 self); [|destruct (isProcessing self) eqn:Hp]];
        cbv zeta in H; injection H as <- <-.
      * apply Hsame; reflexivity.
      * apply Hnone; reflexivity.
      * apply Hsame; [reflexivity | cbn; exact Hp].
      * apply Hstart; reflexivity.
    + intros self' w' H. rewrite disconnect_cases in H. cbn [now log] in H.
      destruct (web3 self); injection H as <- <-.
      * apply Hsame; reflexivity.
      * apply Hnone; reflexivity.
    + intros listening self' w' H.
      destruct (web3 self) as [h|] eqn:Hw.
      * destruct listening as [b|e].
        -- rewrite (tick_alive self h b _ Hw) in H. injection H as <- <-.
           apply Hsame; reflexivity.
        -- rewrite (tick_failed self h e _ Hw) in H. injection H as <- <-.
           apply Hsame; [reflexivity|].
           apply (flip_provider_fields (set_web3 None self)).
      * rewrite (tick_disconnected self listening _ Hw) in H. injection H as <- <-.
        apply Hsame; [reflexivity|]. apply (flip_provider_fields self).
    + intros self' w' H. rewrite heartbeat_cases in H. cbn [now log] in H.
      destruct (extWeb3 self); [|destruct (isProcessing self) eqn:Hp];
        injection H as <- <-.
      * apply Hnone; reflexivity.
      * apply Hnone; exact Hp.
      * apply Hstart; reflexivity.
Qed.

Lemma probe_started_once_invariant_witness :
  exists s1 w1 s2 w2 s3 w3,
    connect Sample2.env (constructor Sample.opts) Sample.w0 = (Normal s1, w1) /\
    disconnect s1 w1 = (Normal s2, w2) /\
    connect Sample2.env s2 w2 = (Normal s3, w3) /\
    (intervals w3 <= 1)%nat.
Proof.
  destruct (connect Sample2.env (constructor Sample.opts) Sample.w0)
    as [[s1|e1] w1] eqn:H1; [|vm_compute in H1; discriminate H1].
  destruct (disconnect s1 w1) as [[s2|e2] w2] eqn:H2;
    [|rewrite disconnect_cases in H2; destruct (web3 s1); discriminate H2].
  destruct (connect Sample2.env s2 w2) as [[s3|e3] w3] eqn:H3;
    [|rewrite connect_cases in H3;
      destruct (extWeb3 s2); [|destruct (web3 s2); [|destruct (isProcessing s2)]];
      discriminate H3].
  exists s1, w1, s2, w2, s3, w3.
  split; [reflexivity|]. split; [exact H2|]. split; [exact H3|].
  destruct probe_started_once_invariant as [Hinit Hstep].
  destruct (Hstep _ _ (Hinit Sample.opts 0)) as (Hc1 & _).
  pose proof (Hc1 _ _ _ H1) as I1.
  destruct (Hstep _ _ I1) as (_ & Hd2 & _).
  pose proof (Hd2 _ _ H2) as I2.
  destruct (Hstep _ _ I2) as (Hc3 & _).
  exact (proj1 (Hc3 _ _ _ H3)).
Defined.

(** X21.  With an externally supplied handle [connect()] opens no
    socket and starts no probe, and it is not idempotent: every call
    subscribes to the four channels again and emits [connect] again.
    [disconnect()] does not release such a handle: without a handle of
    the plugin's own it does nothing, and the plugin stays connected. *)
Theorem external_handle_connect : forall env self h w,
  extWeb3 self = Some h ->
  let round t := [(t, Subscribed "Deposit"); (t, Subscribed "Withdraw");
                  (t, Subscribed "Fulfill"); (t, Subscribed "Update");
                  (t, Emitted "connect" [])] in
  exists s1 w1 s2 w2,
    connect env self w = (Normal s1, w1) /\
    connect env s1 w1 = (Normal s2, w2) /\
    log w2 = (log w ++ round (now w) ++ round (now w))%list /\
    isProcessing s2 = isProcessing self /\
    isConnected s2 = true /\
    (web3 self = None -> disconnect s2 w2 = (Normal s2, w2)).
Proof.
  intros env self h w He. cbv zeta.
  eexists. eexists. eexists. eexists.
  split; [rewrite connect_cases, He; reflexivity|].
  split; [rewrite connect_cases; cbn [extWeb3 set_contract]; rewrite He; reflexivity|].
  cbn [log now]. split; [rewrite <- app_assoc; reflexivity|].
  split; [reflexivity|]. split.
  - unfold isConnected. cbn [web3 extWeb3 set_contract]. rewrite He.
    destruct (web3 self); reflexivity.
  - intros Hw. rewrite disconnect_cases. cbn [web3 set_contract]. rewrite Hw. reflexivity.
Qed.

Lemma external_handle_connect_witness :
  exists s1 w1 s2 w2,
    connect Sample2.env Sample2.external Sample.w0 = (Normal s1, w1) /\
    connect Sample2.env s1 w1 = (Normal s2, w2) /\
    List.length (log w2) = 10%nat /\
    isConnected s2 = true /\
    disconnect s2 w2 = (Normal s2, w2).
Proof.
  destruct (external_handle_connect Sample2.env Sample2.external
              (Sample.scripted [] "ws://shared:8546") Sample.w0 eq_refl)
    as (s1 & w1 & s2 & w2 & H1 & H2 & Hlog & _ & Hc & Hd).
  exists s1, w1, s2, w2.
  split; [exact H1|]. split; [exact H2|].
  split; [rewrite Hlog; reflexivity|]. split; [exact Hc | apply Hd; reflexivity].
Defined.

(** X22.  With a handle of its own, [connect()] is idempotent: a second
    call right after the first changes nothing and logs nothing, and
    the plugin is connected. *)
Theorem connect_twice : forall env self w,
  extWeb3 self = None ->
  exists s1 w1,
    connect env self w = (Normal s1, w1) /\
    connect env s1 w1 = (Normal s1, w1) /\
    isConnected s1 = true.
Proof.
  intros env self w He.
  destruct (web3 self) as [h|] eqn:Hw.
  - exists self, w.
    assert (H : connect env self w = (Normal self, w))
      by (rewrite connect_cases, He, Hw; reflexivity).
    split; [exact H|]. split; [exact H|].
    unfold isConnected. rewrite Hw. reflexivity.
  - destruct (isProcessing self) eqn:Hp.
    + eexists. eexists.
      split; [rewrite connect_cases, He, Hw; cbv zeta; rewrite Hp; reflexivity|].
      split; [|reflexivity].
      rewrite connect_cases. cbn [extWeb3 web3 set_contract set_web3]. rewrite He.
      reflexivity.
    + eexists. eexists.
      split; [rewrite connect_cases, He, Hw; cbv zeta; rewrite Hp; reflexivity|].
      split; [|reflexivity].
      rewrite connect_cases. cbn [extWeb3 web3 set_contract set_web3 set_isProcessing].
      rewrite He. reflexivity.
Qed.

Lemma connect_twice_witness :
  exists s1 w1,
    connect Sample2.env (constructor Sample.opts) Sample.w0 = (Normal s1, w1) /\
    connect Sample2.env s1 w1 = (Normal s1, w1) /\
    isConnected s1 = true.
Proof.
  apply (connect_twice Sample2.env (constructor Sample.opts) Sample.w0). reflexivity.
Defined.

(** X23.  [disconnect()] on a plugin with a handle of its own closes the
    link and emits [disconnect] once; the contract stays bound.  After
    it the plugin is not connected, a second [disconnect()] does and
    emits nothing, and [sendTransfer] is refused with "must be
    connected" before anything reaches the node. *)
Theorem disconnect_then_send : forall self h w,
  web3 self = Some h ->
  extWeb3 self = None ->
  exists s1 w1,
    disconnect self w = (Normal s1, w1) /\
    log w1 = (log w ++ [(now w, SocketClosed (endpoint h));
                        (now w, Emitted "disconnect" [])])%list /\
    contract s1 = contract self /\
    isConnected s1 = false /\
    disconnect s1 w1 = (Normal s1, w1) /\
    (forall t, sendTransfer s1 t w1 = (Throw (Error "must be connected"), w1)).
Proof.
  intros self h w Hw He.
  eexists. eexists.
  split; [rewrite disconnect_cases, Hw; reflexivity|].
  split; [reflexivity|]. split; [reflexivity|].
  assert (Hc : isConnected (set_web3 None self) = false)
    by (unfold isConnected; cbn [web3 extWeb3 set_web3]; rewrite He; reflexivity).
  split; [exact Hc|]. split.
  - rewrite disconnect_cases. reflexivity.
  - intros t. unfold sendTransfer. rewrite Hc. reflexivity.
Qed.

Lemma disconnect_then_send_witness :
  exists s1 w1,
    disconnect (Sample.connected [] (Sample.raw Sample.alice_address Sample.bob_address 0 0))
               Sample.w0 = (Normal s1, w1) /\
    effects w1 = [SocketClosed "ws://node-1:8546"; Emitted "disconnect" []] /\
    sendTransfer s1 Sample.outgoing_transfer w1 = (Throw (Error "must be connected"), w1).
Proof.
  destruct (disconnect_then_send
              (Sample.connected [] (Sample.raw Sample.alice_address Sample.bob_address 0 0))
              (Sample.scripted [] "ws://node-1:8546") Sample.w0 eq_refl eq_refl)
    as (s1 & w1 & H1 & Hlog & _ & _ & _ & Hsend).
  exists s1, w1. split; [exact H1|]. split; [|apply Hsend].
  unfold effects. rewrite Hlog. reflexivity.
Defined.

(** X24.  Failover, end to end: after a tick whose liveness query was
    rejected, the [connect()] that the probe's socket triggers binds the
    plugin to a handle for the endpoint the tick switched to, and
    starts no second probe. *)
Theorem failover_reconnects : forall env self h e w,
  web3 self = Some h ->
  extWeb3 self = None ->
  isProcessing self = true ->
  exists s1 w1 s2 w2,
    heartbeat_tick self (Throw e) w = (Normal s1, w1) /\
    connect env s1 w1 = (Normal s2, w2) /\
    provider s1 = (if String.eqb (provider self) (_primaryProvider self)
                   then _secondaryProvider self else _primaryProvider self) /\
    web3 s2 = Some (new_Web3 env (provider s1)) /\
    provider s2 = provider s1 /\
    intervals w2 = intervals w.
Proof.
  intros env self h e w Hw He Hp.
  destruct (flip_provider_fields (set_web3 None self)) as (_ & _ & Hw1 & He1 & Hp1 & _).
  cbn [web3 extWeb3 isProcessing set_web3] in Hw1, He1, Hp1.
  rewrite He in He1. rewrite Hp in Hp1.
  eexists. eexists. eexists. eexists.
  split; [apply (tick_failed self h e w Hw)|].
  split; [rewrite connect_cases, He1, Hw1; cbv zeta; rewrite Hp1; reflexivity|].
  split.
  - unfold flip_provider. cbn [provider _primaryProvider _secondaryProvider set_web3].
    destruct (String.eqb (provider self) (_primaryProvider self)); reflexivity.
  - split; [reflexivity|]. split; [reflexivity|].
    destruct w as [n l]. cbn [now log].
    rewrite !intervals_app. cbn. lia.
Qed.

Lemma failover_reconnects_witness :
  exists s1 w1 s2 w2,
    heartbeat_tick (Sample.connected [] (Sample.raw Sample.alice_address Sample.bob_address 0 0))
                   (Throw (Error "connection not open")) Sample.w0 = (Normal s1, w1) /\
    connect Sample2.env s1 w1 = (Normal s2, w2) /\
    provider s2 = "ws://node-2:8546" /\
    web3 s2 = Some (new_Web3 Sample2.env "ws://node-2:8546").
Proof.
  destruct (failover_reconnects Sample2.env
              (Sample.connected [] (Sample.raw Sample.alice_address Sample.bob_address 0 0))
              (Sample.scripted [] "ws://node-1:8546") (Error "connection not open") Sample.w0
              eq_refl eq_refl eq_refl)
    as (s1 & w1 & s2 & w2 & H1 & H2 & Hp1 & Hw2 & Hp2 & _).
  exists s1, w1, s2, w2. split; [exact H1|]. split; [exact H2|].
  split; [rewrite Hp2, Hp1; reflexivity | rewrite Hw2, Hp1; reflexivity].
Defined.
